(** * Microlabs triage agent: the decision core of [agent/triage.py]

    A shallow embedding of the rule engine, the intervention policy, the
    classifier adapter and the severity scorer, followed by the properties
    the specification states about them; then start-up, the prediction
    route and the batch runner of the same file, with what the code shows
    about them.

    Python values are represented as follows.
    - [float] is IEEE-754 binary64: Rocq's primitive [float], whose
      comparisons return [false] as soon as one side is NaN, as Python's do.
    - [int] is unbounded: [Z].
    - [str] is [string]; the labels of the program are ASCII.
    - The module-global generator of [random] and standard output (what
      [print] has written, and which texts the stream refuses) form the
      [World] that every effectful function threads.
    - A raised exception is an outcome of its own, and the state reached
      when it is raised is kept, as [try]/[except] observes it.  An
      exception is an instance of [Exception] or not; [except Exception]
      catches the former only. *)

From Stdlib Require Import ZArith List String Ascii Bool Floats Lia.
From Stdlib Require Import DecimalString.
Import ListNotations.

Set Implicit Arguments.

(** Decimal literals are rounded to the nearest binary64 number, the value
    Python gives them as well. *)
Set Warnings "-inexact-float".

(* ===================================================================== *)
(** ** Python primitives used by the program *)
(* ===================================================================== *)

Module Py.

(** *** Comparisons of floats

    The program compares float fields with the float literals [0.9] and
    [1.2] and with small integer literals ([80], [88], [90], [95], [100],
    [130]).  Python compares a float with an int by value; each of these
    integers is a binary64 number, so the comparison is the IEEE one with
    the integer read as a float. *)

Definition lt (x y : float) : bool := (x <? y)%float.
Definition le (x y : float) : bool := (x <=? y)%float.
Definition gt (x y : float) : bool := (y <? x)%float.
Definition ge (x y : float) : bool := (y <=? x)%float.

(** *** Strings *)

(** [c.lower()] on one ASCII character. *)
Definition lower_ascii (c : ascii) : ascii :=
  let n := nat_of_ascii c in
  if (65 <=? n)%nat && (n <=? 90)%nat then ascii_of_nat (n + 32) else c.

(** [s.lower()] *)
Fixpoint lower (s : string) : string :=
  match s with
  | EmptyString => EmptyString
  | String c t => String (lower_ascii c) (lower t)
  end.

(** [needle in hay] for two strings: [needle] occurs at some offset. *)
Fixpoint str_in (needle hay : string) : bool :=
  String.prefix needle hay ||
  match hay with
  | EmptyString => false
  | String _ t => str_in needle t
  end.

(** *** Exceptions, the world, and the monad of effectful code *)

(** What [raise] raises, with the text that [str(e)] gives: an instance
    of [Exception] ([ValueError], [IndexError], [OSError], ...), or an
    instance of [BaseException] that is not one of [Exception]
    ([KeyboardInterrupt], [SystemExit], [GeneratorExit]). *)
Inductive exn : Type :=
| Exception (msg : string)
| BaseException (msg : string).

Definition exn_str (e : exn) : string :=
  match e with
  | Exception msg => msg
  | BaseException msg => msg
  end.

(** [isinstance(e, Exception)] *)
Definition is_Exception (e : exn) : bool :=
  match e with
  | Exception _ => true
  | BaseException _ => false
  end.

Inductive outcome (A : Type) : Type :=
| Return (a : A)
| Raise (e : exn).
Arguments Return {A} a.
Arguments Raise {A} e.

(** The generator behind [random] is the sequence of indices it is going
    to hand out, read at a cursor.  [stdout] holds the texts of the
    [print] calls that went through, oldest first.  [stdout_error] is the
    stream's refusal: given what it has taken so far and a text, the
    exception that writing the text raises, if any (a [UnicodeEncodeError]
    when the stream's encoding lacks a character of the text, an [OSError]
    when the stream is closed or broken). *)
Record World : Type := mkWorld {
  rng_draws : nat -> nat;
  rng_pos : nat;
  stdout : list string;
  stdout_error : list string -> string -> option exn
}.

Definition M (A : Type) : Type := World -> outcome A * World.

Definition ret {A} (a : A) : M A := fun w => (Return a, w).

Definition raise {A} (e : exn) : M A := fun w => (Raise e, w).

Definition bind {A B} (c : M A) (k : A -> M B) : M B :=
  fun w =>
    match c w with
    | (Return a, w') => k a w'
    | (Raise e, w') => (Raise e, w')
    end.

(** A call into code that has no effect on the world but may raise. *)
Definition lift {A} (o : outcome A) : M A := fun w => (o, w).

(** [try: body  except Exception as e: handler(e)].  An exception that
    is not an instance of [Exception] passes through; so does whatever the
    handler raises. *)
Definition try_except {A} (body : M A) (handler : exn -> M A) : M A :=
  fun w =>
    match body w with
    | (Return a, w') => (Return a, w')
    | (Raise (Exception msg), w') => handler (Exception msg) w'
    | (Raise (BaseException msg), w') => (Raise (BaseException msg), w')
    end.

(** [print(text)]: the stream takes the text, or refuses it and the call
    raises with nothing of the text written. *)
Definition print (text : string) : M unit :=
  fun w =>
    match stdout_error w (stdout w) text with
    | Some e => (Raise e, w)
    | None =>
        (Return tt,
         mkWorld (rng_draws w) (rng_pos w) (stdout w ++ [text]) (stdout_error w))
    end.

(** [random.choice(seq)]: [seq[randbelow(len(seq))]]; an [IndexError] on
    an empty sequence.  The index is the generator's next draw brought
    below [len(seq)]. *)
Definition choice {A} (seq : list A) : M A :=
  fun w =>
    match seq with
    | [] => (Raise (Exception "Cannot choose from an empty sequence"), w)
    | d :: _ =>
        let i := (rng_draws w (rng_pos w) mod List.length seq)%nat in
        (Return (nth i seq d),
         mkWorld (rng_draws w) (S (rng_pos w)) (stdout w) (stdout_error w))
    end.

(** [seq[0]]: an [IndexError] on an empty list. *)
Definition first {A} (seq : list A) : M A :=
  match seq with
  | [] => raise (Exception "list index out of range")
  | a :: _ => ret a
  end.

End Py.

Import Py.

Declare Scope py_scope.
Delimit Scope py_scope with py.
Notation "x <- c ;; k" := (bind c (fun x => k))
  (at level 61, c at next level, right associativity) : py_scope.
Notation "c ;;; k" := (bind c (fun _ => k))
  (at level 61, right associativity) : py_scope.
Local Open Scope py_scope.
Local Open Scope string_scope.

(* ===================================================================== *)
(** ** The triage agent *)
(* ===================================================================== *)

Module Triage.

(** [class Patient(BaseModel)] *)
Record Patient : Type := mkPatient {
  age : Z;
  sex : Z;
  hr : float;
  sbp : float;
  dbp : float;
  rr : float;
  spo2 : float;
  temp : float;
  dyspnea : Z;
  chest_pain : Z;
  confusion : Z;
  comorb : Z;
  pulse_pressure : float;
  map : float;
  shock_index : float;
  abnormal_count : Z
}.

(** [class PredictionResult(BaseModel)] *)
Record PredictionResult : Type := mkPredictionResult {
  risk : string;
  intervention : string
}.

(** The three risk labels and the four interventions the program writes. *)
Definition Immediate : string := "Immediate (RED)".
Definition Delayed : string := "Delayed (YELLOW)".
Definition Minimal : string := "Minimal (GREEN)".

Definition Oxygen : string := "Oxygen".
Definition ICU : string := "ICU".
Definition Ventilator : string := "Ventilator".
Definition Nil : string := "Nil".

(** [def rule_based_intervention(patient, risk_class)] *)
Definition rule_based_intervention (patient : Patient) (risk_class : string) : string :=
  if lt (spo2 patient) 88 then Oxygen
  else if (lower risk_class =? "immediate (red)")%string then ICU
  else if gt (hr patient) 130 || lt (sbp patient) 80 || gt (shock_index patient) 1.2
       then Ventilator
  else Nil.

(** [def get_rule_based_prediction(patient)] *)
Definition get_rule_based_prediction (patient : Patient) : M PredictionResult :=
  risk <- (if gt (shock_index patient) 0.9 || lt (sbp patient) 90
           then ret Immediate
           else if (abnormal_count patient >=? 3)%Z
                   || (confusion patient =? 1)%Z
                   || (chest_pain patient =? 1)%Z
           then ret Delayed
           else if lt (hr patient) 100 && gt (sbp patient) 100 && gt (spo2 patient) 95
           then ret Minimal
           else choice [Delayed; Minimal]) ;;
  let intervention := rule_based_intervention patient risk in
  ret (mkPredictionResult risk intervention).

(** *** The classifier and the libraries around it

    The pickled model and [pandas] come from outside the repository.  A
    call into either returns or raises; neither reads the generator of
    [random] nor writes to standard output.  A frame is the list of its
    rows, a row the list of its named cells.  The labels a classifier
    returns are ints. *)

Inductive value : Type :=
| VInt (z : Z)
| VFloat (f : float).

Definition row : Type := list (string * value).
Definition DataFrame : Type := list row.

Record Classifier : Type := mkClassifier {
  predict : DataFrame -> outcome (list Z)
}.

(** [MODEL] is the module global set once at start-up ([None] when the
    file is missing or does not load); [pd_DataFrame] is [pd.DataFrame]. *)
Record Runtime : Type := mkRuntime {
  MODEL : option Classifier;
  pd_DataFrame : list row -> outcome DataFrame
}.

(** The dict literal of [get_model_prediction]. *)
Definition features (patient : Patient) : row :=
  [ ("age", VInt (age patient));
    ("sex", VInt (sex patient));
    ("hr", VFloat (hr patient));
    ("sbp", VFloat (sbp patient));
    ("dbp", VFloat (dbp patient));
    ("rr", VFloat (rr patient));
    ("spo2", VFloat (spo2 patient));
    ("temp", VFloat (temp patient));
    ("dyspnea", VInt (dyspnea patient));
    ("chest_pain", VInt (chest_pain patient));
    ("confusion", VInt (confusion patient));
    ("comorb", VInt (comorb patient));
    ("pulse_pressure", VFloat (pulse_pressure patient));
    ("map", VFloat (map patient));
    ("shock_index", VFloat (shock_index patient));
    ("abnormal_count", VInt (abnormal_count patient)) ].

(** The body of the [try] block of [get_model_prediction]. *)
Definition model_branch (env : Runtime) (model : Classifier) (patient : Patient)
  : M PredictionResult :=
  input_df <- lift (pd_DataFrame env [features patient]) ;;
  preds <- lift (predict model input_df) ;;
  pred_class <- first preds ;;
  let risk := if (pred_class =? 0)%Z then Minimal
              else if (pred_class =? 1)%Z then Delayed
              else Immediate in
  let intervention := rule_based_intervention patient risk in
  ret (mkPredictionResult risk intervention).

(** The line the [except] block prints. *)
Definition fallback_line (e : exn) : string :=
  "Model prediction error: " ++ exn_str e ++ ". Falling back to rule-based logic.".

(** [def get_model_prediction(patient)] *)
Definition get_model_prediction (env : Runtime) (patient : Patient) : M PredictionResult :=
  match MODEL env with
  | None => get_rule_based_prediction patient
  | Some model =>
      try_except
        (model_branch env model patient)
        (fun e => print (fallback_line e) ;;; get_rule_based_prediction patient)
  end.

(** [def map_risk_to_score(risk)] *)
Definition map_risk_to_score (risk : string) : float :=
  if str_in "RED" risk then 0.9
  else if str_in "YELLOW" risk then 0.6
  else 0.2.

End Triage.

Import Triage.

(* ===================================================================== *)
(** ** Observations, sample records and stubs *)
(* ===================================================================== *)

(** What a call returned, when it returned. *)
Definition returned {A} (r : outcome A * World) : option A :=
  match fst r with
  | Return a => Some a
  | Raise _ => None
  end.

(** Two worlds whose generators are in the same state. *)
Definition same_rng (w1 w2 : World) : Prop :=
  rng_draws w1 = rng_draws w2 /\ rng_pos w1 = rng_pos w2.

(** A prediction that fits a record: one of the three labels, with the
    intervention the policy gives that record under that label. *)
Definition fits (p : Patient) (res : PredictionResult) : Prop :=
  (risk res = Immediate \/ risk res = Delayed \/ risk res = Minimal) /\
  intervention res = rule_based_intervention p (risk res).

Module Samples.

(** A stream that takes every text. *)
Definition accepting : list string -> string -> option exn := fun _ _ => None.

(** [text.isascii()] *)
Fixpoint is_ascii (text : string) : bool :=
  match text with
  | EmptyString => true
  | String c t => (nat_of_ascii c <? 128)%nat && is_ascii t
  end.

(** A stream opened with the ASCII encoding: it refuses every text that
    holds another character. *)
Definition ascii_only : list string -> string -> option exn :=
  fun _ text =>
    if is_ascii text then None
    else Some (Exception "'ascii' codec can't encode character").

(** A generator that always hands out index [k], an empty output, and a
    stream that takes every text. *)
Definition world_of (k : nat) : World := mkWorld (fun _ => k) 0 [] accepting.

(** The same with an ASCII stream. *)
Definition ascii_world_of (k : nat) : World := mkWorld (fun _ => k) 0 [] ascii_only.

(** Scenario A of the specification: shock and low pressure. *)
Definition shocked : Patient :=
  {| age := 61; sex := 1; hr := 90; sbp := 85; dbp := 50; rr := 20;
     spo2 := 92; temp := 37; dyspnea := 0; chest_pain := 0; confusion := 0;
     comorb := 1; pulse_pressure := 35; map := 61.7; shock_index := 1.1;
     abnormal_count := 2 |}.

(** Scenario B: hypoxia with otherwise calm vitals. *)
Definition hypoxic : Patient :=
  {| age := 45; sex := 0; hr := 90; sbp := 120; dbp := 80; rr := 16;
     spo2 := 80; temp := 36.8; dyspnea := 1; chest_pain := 0; confusion := 0;
     comorb := 0; pulse_pressure := 40; map := 93.3; shock_index := 0.3;
     abnormal_count := 1 |}.

(** Scenario C: tachycardia, normal pressure, saturation 97. *)
Definition tachycardic : Patient :=
  {| age := 38; sex := 0; hr := 140; sbp := 120; dbp := 80; rr := 22;
     spo2 := 97; temp := 37.2; dyspnea := 0; chest_pain := 0; confusion := 0;
     comorb := 0; pulse_pressure := 40; map := 93.3; shock_index := 0.5;
     abnormal_count := 1 |}.

(** Scenario C's vitals with saturation 80. *)
Definition tachycardic_hypoxic : Patient :=
  {| age := 38; sex := 0; hr := 140; sbp := 120; dbp := 80; rr := 22;
     spo2 := 80; temp := 37.2; dyspnea := 0; chest_pain := 0; confusion := 0;
     comorb := 0; pulse_pressure := 40; map := 93.3; shock_index := 0.5;
     abnormal_count := 1 |}.

(** Scenario D: four abnormal signs, no confusion, no chest pain. *)
Definition many_abnormal : Patient :=
  {| age := 70; sex := 1; hr := 95; sbp := 110; dbp := 70; rr := 24;
     spo2 := 93; temp := 38.5; dyspnea := 1; chest_pain := 0; confusion := 0;
     comorb := 1; pulse_pressure := 40; map := 83.3; shock_index := 0.2;
     abnormal_count := 4 |}.

(** No rule fires: rule 4 draws. *)
Definition borderline : Patient :=
  {| age := 52; sex := 1; hr := 105; sbp := 115; dbp := 75; rr := 18;
     spo2 := 96; temp := 37; dyspnea := 0; chest_pain := 0; confusion := 0;
     comorb := 0; pulse_pressure := 40; map := 88.3; shock_index := 0.8;
     abnormal_count := 1 |}.

(** Every float field is NaN. *)
Definition all_nan : Patient :=
  {| age := 30; sex := 0; hr := nan; sbp := nan; dbp := nan; rr := nan;
     spo2 := nan; temp := nan; dyspnea := 0; chest_pain := 0; confusion := 0;
     comorb := 0; pulse_pressure := nan; map := nan; shock_index := nan;
     abnormal_count := 0 |}.

(** Infinite heart rate and pressure, negative saturation, a shock index
    that is NaN (infinity over infinity), a negative count. *)
Definition extreme : Patient :=
  {| age := 30; sex := 0; hr := infinity; sbp := infinity; dbp := neg_infinity;
     rr := 0; spo2 := -5; temp := 1e308; dyspnea := 0; chest_pain := 0;
     confusion := 0; comorb := 0; pulse_pressure := infinity; map := infinity;
     shock_index := nan; abnormal_count := -7 |}.

End Samples.

Import Samples.

Module Stubs.

(** [pd.DataFrame] as it behaves on a list of flat dicts. *)
Definition pandas : list row -> outcome DataFrame := fun rows => Return rows.

(** A classifier that raises on every call. *)
Definition always_raises : Classifier :=
  mkClassifier (fun _ => Raise (Exception "feature_names mismatch")).

(** A classifier whose error text is not ASCII. *)
Definition raises_accented : Classifier :=
  mkClassifier (fun _ => Raise (Exception "café")).

(** A classifier interrupted in the middle of every call. *)
Definition interrupted : Classifier :=
  mkClassifier (fun _ => Raise (BaseException "KeyboardInterrupt")).

(** A classifier that predicts the same label for every row. *)
Definition constant (label : Z) : Classifier :=
  mkClassifier (fun df => Return (List.map (fun _ => label) df)).

Definition no_model : Runtime := mkRuntime None pandas.
Definition broken_model : Runtime := mkRuntime (Some always_raises) pandas.
Definition accented_model : Runtime := mkRuntime (Some raises_accented) pandas.
Definition interrupted_model : Runtime := mkRuntime (Some interrupted) pandas.
Definition model_saying (label : Z) : Runtime := mkRuntime (Some (constant label)) pandas.

End Stubs.

Import Stubs.

(* ===================================================================== *)
(** ** Start-up, the prediction route and the batch runner *)
(* ===================================================================== *)

Module Service.

(** *** Configuration *)

(** [os.path.join] on a POSIX host. *)
Definition DATA_DIR : string := "data".
Definition TRIAGE_OUTPUT_PATH : string := "data/triage_output.csv".
Definition PATIENT_STATUS_PATH : string := "data/patient_status.csv".

(** *** What the host provides

    The file system, [pickle], [pandas] and the validation that the
    [Patient] constructor runs are outside the repository: each is a call
    that returns or raises.  A frame read from a CSV file is the list of
    its rows as [iterrows] yields them, a row the list of its labelled
    cells; every row of one frame has the frame's columns as labels, and
    an empty field of the file is a NaN cell. *)

Inductive cell : Type :=
| CInt (z : Z)
| CFloat (f : float)
| CStr (s : string).

Definition Series : Type := list (string * cell).
Definition Frame : Type := list Series.

(** What a write of a whole file comes to: the file holds the frame; or
    the file could not be opened and the call raised; or the call raised
    midway and the file holds what had reached it. *)
Inductive write : Type :=
| Stored
| Refused (e : exn)
| Torn (partial : Frame) (e : exn).

Record Host : Type := mkHost {
  os_path_exists : string -> bool;
  pickle_load : string -> outcome Classifier;
  pd_read_csv : string -> outcome Frame;
  Patient_validate : Series -> outcome Patient;
  DataFrame_error : Frame -> option exn;
  to_csv_write : Frame -> string -> write
}.

(** [row.get(key, default)]: the cell under [key], or [default]. *)
Fixpoint get (row : Series) (key : string) (default : cell) : cell :=
  match row with
  | [] => default
  | (k, v) :: rest => if (k =? key)%string then v else get rest key default
  end.

(** [str(n)] for an int. *)
Definition str (n : Z) : string := NilZero.string_of_int (Z.to_int n).

(** [random.randint(a, b)]: [a + randbelow(b - a + 1)]; a [ValueError] on
    an empty range. *)
Definition randint (a b : Z) : M Z :=
  fun w =>
    if (b <? a)%Z then (Raise (Exception "empty range for randrange()"), w)
    else
      let k := (rng_draws w (rng_pos w) mod Z.to_nat (b - a + 1))%nat in
      ((Return (a + Z.of_nat k)%Z),
       mkWorld (rng_draws w) (S (rng_pos w)) (stdout w) (stdout_error w)).

(** [pd.DataFrame(results)]: the frame of the given records, unless the
    call raises. *)
Definition DataFrame_of (host : Host) (results : Frame) : outcome Frame :=
  match DataFrame_error host results with
  | Some e => Raise e
  | None => Return results
  end.

(** *** Code over a larger state

    Start-up assigns the module global [MODEL]; the batch runner writes a
    file.  Both run in the monad of [Py.M] over a state that holds the
    [World] and more. *)

Definition SE (S A : Type) : Type := S -> outcome A * S.

Definition retS {S A} (a : A) : SE S A := fun s => (Return a, s).

Definition raiseS {S A} (e : exn) : SE S A := fun s => (Raise e, s).

Definition bindS {S A C} (c : SE S A) (k : A -> SE S C) : SE S C :=
  fun s =>
    match c s with
    | (Return a, s') => k a s'
    | (Raise e, s') => (Raise e, s')
    end.

(** A call into the host. *)
Definition liftS {S A} (o : outcome A) : SE S A := fun s => (o, s).


Declare Scope service_scope.
Delimit Scope service_scope with service.
Notation "x <- c ;; k" := (bindS c (fun x => k))
  (at level 61, c at next level, right associativity) : service_scope.
Notation "c ;;; k" := (bindS c (fun _ => k))
  (at level 61, right associativity) : service_scope.

(** *** Start-up

    The state of start-up: the module's globals and the world. *)





(** *** The prediction route *)

(** What a route handler does: it returns its response, raises an
    [HTTPException], or lets another exception through. *)
Inductive handled (A : Type) : Type :=
| Responds (a : A)
| HTTPException (status_code : Z) (detail : string)
| Uncaught (e : exn).
Arguments Responds {A} a.
Arguments HTTPException {A} status_code detail.
Arguments Uncaught {A} e.

(** The [for] loop of [predict_triage]; [results] is the list built so
    far. *)
Fixpoint predict_each (env : Runtime) (patients : list Patient)
    (results : list PredictionResult) : M (list PredictionResult) :=
  match patients with
  | [] => ret results
  | patient_data :: rest =>
      pred <- get_model_prediction env patient_data ;;
      predict_each env rest (results ++ [pred])
  end.

(** [async def predict_triage(patients)] *)
Definition predict_triage (env : Runtime) (patients : list Patient)
  : World -> handled (list PredictionResult) * World :=
  fun w =>
    match patients with
    | [] => (HTTPException 400 "No patient data provided.", w)
    | _ =>
        match predict_each env patients [] w with
        | (Return results, w') => (Responds results, w')
        | (Raise e, w') => (Uncaught e, w')
        end
    end.

(** *** The batch runner

    [written] lists what the files written so far hold, oldest first,
    next to the [World]. *)

Record Machine : Type := mkMachine {
  world : World;
  written : list (string * Frame)
}.

(** Code of the triage core, which leaves the files alone. *)
Definition in_world {A} (c : M A) : SE Machine A :=
  fun m =>
    match c (world m) with
    | (o, w') => (o, mkMachine w' (written m))
    end.

(** [frame.to_csv(path, index=False)] *)
Definition to_csv (host : Host) (frame : Frame) (path : string) : SE Machine unit :=
  fun m =>
    match to_csv_write host frame path with
    | Stored => (Return tt, mkMachine (world m) (written m ++ [(path, frame)])%list)
    | Refused e => (Raise e, m)
    | Torn partial e => (Raise e, mkMachine (world m) (written m ++ [(path, partial)])%list)
    end.

(** The five regions of the placeholder location. *)
Definition regions : list string := ["North"; "South"; "East"; "West"; "Central"].

(** The dict appended to [results] for one row.  Both defaults are
    computed before [row.get] looks the key up. *)
Definition result_row (row : Series) (patient : Patient) (pred : PredictionResult)
    (n : Z) (region : string) : Series :=
  [ ("patient_id", get row "patient_id" (CStr ("PX" ++ str n)));
    ("name", get row "name" (CStr "Unknown"));
    ("age", CInt (age patient));
    ("severity_score", CFloat (map_risk_to_score (risk pred)));
    ("risk", CStr (risk pred));
    ("intervention", CStr (intervention pred));
    ("location", get row "location" (CStr region)) ].

(** The [for] loop of [run_triage_on_csv] over [df.iterrows()]. *)
Fixpoint triage_rows (host : Host) (env : Runtime) (rows : Frame) (results : Frame)
  : SE Machine Frame :=
  match rows with
  | [] => retS results
  | row :: rest =>
      (patient <- liftS (Patient_validate host row) ;;
       pred <- in_world (get_model_prediction env patient) ;;
       n <- in_world (randint 1000 9999) ;;
       region <- in_world (choice regions) ;;
       triage_rows host env rest (results ++ [result_row row patient pred n region])%list
      )%service
  end.

(** [def run_triage_on_csv(input_path, output_path)] *)
Definition run_triage_on_csv (host : Host) (env : Runtime)
    (input_path output_path : string) : SE Machine Frame :=
  (if negb (os_path_exists host input_path)
   then raiseS (Exception ("Input file not found: " ++ input_path))
   else
     df <- liftS (pd_read_csv host input_path) ;;
     in_world (print ("Loaded " ++ str (Z.of_nat (List.length df))
                      ++ " patients for triage.")) ;;;
     results <- triage_rows host env df [] ;;
     triage_df <- liftS (DataFrame_of host results) ;;
     to_csv host triage_df output_path ;;;
     in_world (print ("Triage results saved → " ++ output_path ++ " ("
                      ++ str (Z.of_nat (List.length triage_df)) ++ " entries)")) ;;;
     retS triage_df)%service.

End Service.

Import Service.

(** An output row that fits an input row: the row validates to a patient,
    and the output is the dict built from that patient, a prediction that
    fits it, a number in the placeholder range and one of the regions. *)
Definition row_result (host : Host) (row out : Series) : Prop :=
  exists patient pred n region,
    Patient_validate host row = Return patient /\
    fits patient pred /\
    (1000 <= n <= 9999)%Z /\
    In region regions /\
    out = result_row row patient pred n region.




(** The state in which the loop of the batch runner starts, once the
    first line is printed. *)
Definition after_loaded (df : Frame) (m : Machine) : Machine :=
  mkMachine
    (mkWorld (rng_draws (world m)) (rng_pos (world m))
             (stdout (world m)
              ++ [("Loaded " ++ str (Z.of_nat (List.length df))
                   ++ " patients for triage.")%string])%list
             (stdout_error (world m)))
    (written m).

Module Hosts.

(** Rows of a frame with identifier columns, and rows of a frame
    without; the last one has an empty [kind] field. *)
Definition row_asha : Series :=
  [ ("patient_id", CStr "P001"); ("name", CStr "Asha"); ("kind", CStr "shock");
    ("location", CStr "East") ].
Definition row_ravi : Series :=
  [ ("patient_id", CStr "P002"); ("name", CStr "Ravi"); ("kind", CStr "border");
    ("location", CStr "West") ].
Definition anon_shock : Series := [ ("kind", CStr "shock") ].
Definition anon_border : Series := [ ("kind", CStr "border") ].

(** A stand-in for the validation of [Patient]: the cell [kind] selects
    a sample record, and every other row is refused. *)
Definition validate_by_kind (row : Series) : outcome Patient :=
  match get row "kind" (CStr "") with
  | CStr kind =>
      if (kind =? "shock")%string then Return shocked
      else if (kind =? "border")%string then Return borderline
      else Raise (Exception "Field required")
  | _ => Raise (Exception "Field required")
  end.

(** A host whose input file holds [frame] and whose disk takes every
    write whole; no model file. *)
Definition host_with (frame : Frame) : Host :=
  mkHost (fun path => (path =? PATIENT_STATUS_PATH)%string)
         (fun _ => Raise (Exception "No such file"))
         (fun _ => Return frame)
         validate_by_kind
         (fun _ => None)
         (fun _ _ => Stored).

(** The same host with a disk that fills up after the first row. *)
Definition host_with_full_disk (frame : Frame) : Host :=
  mkHost (fun path => (path =? PATIENT_STATUS_PATH)%string)
         (fun _ => Raise (Exception "No such file"))
         (fun _ => Return frame)
         validate_by_kind
         (fun _ => None)
         (fun out _ => Torn (firstn 1 out) (Exception "No space left on device")).


Definition machine_of (k : nat) : Machine := mkMachine (world_of k) [].
Definition ascii_machine_of (k : nat) : Machine := mkMachine (ascii_world_of k) [].

(** The frame a run returned, empty when it raised. *)
Definition frame_of (r : outcome Frame * Machine) : Frame :=
  match fst r with
  | Return frame => frame
  | Raise _ => []
  end.

(** The frame a run returned, when it returned. *)
Definition returned_frame (r : outcome Frame * Machine) : option Frame :=
  match fst r with
  | Return frame => Some frame
  | Raise _ => None
  end.

End Hosts.

Import Hosts.

(* ===================================================================== *)
(** ** Facts about the primitives *)
(* ===================================================================== *)

Section FloatOrder.

(** Swapping the sides of an IEEE comparison reverses its answer. *)
Lemma SFcompare_swap (x y : spec_float) :
  SFcompare y x = option_map CompOpp (SFcompare x y).
Proof.
  destruct x as [sx|sx| |sx mx ex], y as [sy|sy| |sy my ey]; simpl;
    try reflexivity;
    try (destruct sx; reflexivity);
    try (destruct sy; reflexivity);
    try (destruct sx, sy; reflexivity).
  destruct sx, sy; simpl; try reflexivity;
    rewrite (Z.compare_antisym ex ey);
    destruct (ex ?= ey)%Z; simpl; try reflexivity;
    rewrite (Pos.compare_cont_antisym mx my Eq); simpl;
    try rewrite CompOpp_involutive; reflexivity.
Qed.

(** [a <= b] excludes [b < a]. *)
Lemma leb_true_ltb_false (a b : float) :
  (a <=? b)%float = true -> (b <? a)%float = false.
Proof.
  rewrite leb_spec, ltb_spec. unfold SFleb, SFltb.
  rewrite (SFcompare_swap (Prim2SF a) (Prim2SF b)).
  destruct (SFcompare (Prim2SF a) (Prim2SF b)) as [[ | | ]|]; simpl;
    intros H; congruence.
Qed.

Lemma le_not_gt (x y : float) : le x y = true -> gt x y = false.
Proof. apply leb_true_ltb_false. Qed.

Lemma ge_not_lt (x y : float) : ge x y = true -> lt x y = false.
Proof. apply leb_true_ltb_false. Qed.

End FloatOrder.

Section WorldFacts.

Lemma same_rng_print (line : string) (w : World) :
  same_rng (snd (print line w)) w.
Proof.
  unfold print. destruct (stdout_error w (stdout w) line); split; reflexivity.
Qed.

(** [random.choice] reads the generator only. *)
Lemma choice_same_rng {A} (seq : list A) (w1 w2 : World) :
  same_rng w1 w2 ->
  fst (choice seq w1) = fst (choice seq w2) /\
  same_rng (snd (choice seq w1)) (snd (choice seq w2)).
Proof.
  intros [Hd Hp]. unfold choice, same_rng.
  destruct seq as [|d l]; simpl.
  - auto.
  - rewrite Hd, Hp. auto.
Qed.

(** [random.choice] over the two labels of rule 4 returns one of them. *)
Lemma choice_two {A} (a b : A) (w : World) :
  exists x w', choice [a; b] w = (Return x, w') /\ (x = a \/ x = b).
Proof.
  unfold choice. cbn [List.length].
  pose proof (Nat.mod_upper_bound (rng_draws w (rng_pos w)) 2) as Hlt.
  destruct (rng_draws w (rng_pos w) mod 2)%nat as [|[|i]]; cbn.
  - eexists; eexists; split; [ reflexivity | now left ].
  - eexists; eexists; split; [ reflexivity | now right ].
  - exfalso. lia.
Qed.

End WorldFacts.


(* ===================================================================== *)
(** ** The intervention policy *)
(* ===================================================================== *)

(** C2.  Whenever [spo2 < 88] the intervention policy answers [Oxygen],
    whatever risk label it is given and whatever the other vitals are. *)
Theorem hypoxia_overrides (p : Patient) (risk_class : string) :
  lt (spo2 p) 88 = true ->
  rule_based_intervention p risk_class = Oxygen.
Proof.
  intros H. unfold rule_based_intervention. rewrite H. reflexivity.
Qed.

Lemma hypoxia_overrides_witness :
  lt (spo2 hypoxic) 88 = true /\
  rule_based_intervention hypoxic Immediate = Oxygen.
Proof.
  split.
  - vm_compute. reflexivity.
  - apply (hypoxia_overrides hypoxic Immediate). vm_compute. reflexivity.
Defined.

(** C5.  With [spo2 >= 88] and the risk label [Immediate], the intervention
    policy answers [ICU]. *)
Theorem immediate_gets_icu (p : Patient) :
  ge (spo2 p) 88 = true ->
  rule_based_intervention p Immediate = ICU.
Proof.
  intros H. unfold rule_based_intervention.
  rewrite (ge_not_lt H). reflexivity.
Qed.

Lemma immediate_gets_icu_witness :
  ge (spo2 shocked) 88 = true /\
  rule_based_intervention shocked Immediate = ICU.
Proof.
  split.
  - vm_compute. reflexivity.
  - apply (immediate_gets_icu shocked). vm_compute. reflexivity.
Defined.

(** C9, as the specification words it, fails: a record with [hr = 140],
    [sbp = 120], [shock_index = 0.5] and saturation 80 gets [Oxygen] under
    the risk label [Delayed], not [Ventilator]. *)
Lemma tachycardia_under_hypoxia :
  hr tachycardic_hypoxic = 140%float /\
  sbp tachycardic_hypoxic = 120%float /\
  shock_index tachycardic_hypoxic = 0.5%float /\
  rule_based_intervention tachycardic_hypoxic Delayed = Oxygen /\
  rule_based_intervention tachycardic_hypoxic Delayed <> Ventilator.
Proof.
  repeat split; try reflexivity.
  vm_compute. discriminate.
Qed.

(** C9, amended.  For [hr = 140], [sbp = 120], [shock_index = 0.5] and the
    risk label [Delayed], the intervention policy answers [Ventilator] for
    every assignment of the remaining fields in which [spo2 < 88] does not
    hold (a NaN saturation included). *)
Theorem tachycardia_override (p : Patient) :
  hr p = 140%float ->
  sbp p = 120%float ->
  shock_index p = 0.5%float ->
  lt (spo2 p) 88 = false ->
  rule_based_intervention p Delayed = Ventilator.
Proof.
  intros Hhr Hsbp Hsi Hspo2. unfold rule_based_intervention.
  rewrite Hspo2, Hhr, Hsbp, Hsi. vm_compute. reflexivity.
Qed.

Lemma tachycardia_override_witness :
  (hr tachycardic = 140%float /\ sbp tachycardic = 120%float /\
   shock_index tachycardic = 0.5%float /\ lt (spo2 tachycardic) 88 = false) /\
  rule_based_intervention tachycardic Delayed = Ventilator.
Proof.
  split.
  - repeat split; vm_compute; reflexivity.
  - apply (tachycardia_override tachycardic); vm_compute; reflexivity.
Defined.

(* ===================================================================== *)
(** ** The rule engine *)
(* ===================================================================== *)

Section RuleEngine.

Variable p : Patient.

(** The rule engine step by step: which rule fires decides the label, and
    only rule 4 moves the generator. *)
Lemma rule1_fires (w : World) :
  gt (shock_index p) 0.9 || lt (sbp p) 90 = true ->
  get_rule_based_prediction p w =
    (Return (mkPredictionResult Immediate (rule_based_intervention p Immediate)), w).
Proof.
  intros H. unfold get_rule_based_prediction, bind. rewrite H. reflexivity.
Qed.

Lemma rule2_fires (w : World) :
  gt (shock_index p) 0.9 || lt (sbp p) 90 = false ->
  (abnormal_count p >=? 3)%Z || (confusion p =? 1)%Z || (chest_pain p =? 1)%Z = true ->
  get_rule_based_prediction p w =
    (Return (mkPredictionResult Delayed (rule_based_intervention p Delayed)), w).
Proof.
  intros H1 H2. unfold get_rule_based_prediction, bind. rewrite H1, H2. reflexivity.
Qed.

Lemma rule3_fires (w : World) :
  gt (shock_index p) 0.9 || lt (sbp p) 90 = false ->
  (abnormal_count p >=? 3)%Z || (confusion p =? 1)%Z || (chest_pain p =? 1)%Z = false ->
  lt (hr p) 100 && gt (sbp p) 100 && gt (spo2 p) 95 = true ->
  get_rule_based_prediction p w =
    (Return (mkPredictionResult Minimal (rule_based_intervention p Minimal)), w).
Proof.
  intros H1 H2 H3. unfold get_rule_based_prediction, bind.
  rewrite H1, H2, H3. reflexivity.
Qed.

Lemma rule4_fires (w : World) :
  gt (shock_index p) 0.9 || lt (sbp p) 90 = false ->
  (abnormal_count p >=? 3)%Z || (confusion p =? 1)%Z || (chest_pain p =? 1)%Z = false ->
  lt (hr p) 100 && gt (sbp p) 100 && gt (spo2 p) 95 = false ->
  exists label w',
    get_rule_based_prediction p w =
      (Return (mkPredictionResult label (rule_based_intervention p label)), w') /\
    (label = Delayed \/ label = Minimal).
Proof.
  intros H1 H2 H3. unfold get_rule_based_prediction, bind.
  rewrite H1, H2, H3.
  destruct (choice_two Delayed Minimal w) as (label & w' & Hc & Hl).
  exists label, w'. rewrite Hc. split; [ reflexivity | exact Hl ].
Qed.

(** Every run of the rule engine returns, and the label is the one of the
    rule that fired. *)
Lemma rule_engine_cases (w : World) :
  exists label w',
    get_rule_based_prediction p w =
      (Return (mkPredictionResult label (rule_based_intervention p label)), w') /\
    ((gt (shock_index p) 0.9 || lt (sbp p) 90 = true /\ label = Immediate) \/
     (gt (shock_index p) 0.9 || lt (sbp p) 90 = false /\
      (label = Delayed \/ label = Minimal))).
Proof.
  destruct (gt (shock_index p) 0.9 || lt (sbp p) 90) eqn:H1.
  { eexists; eexists; split; [ apply (rule1_fires w H1) | left; auto ]. }
  destruct ((abnormal_count p >=? 3)%Z || (confusion p =? 1)%Z
            || (chest_pain p =? 1)%Z) eqn:H2.
  { eexists; eexists; split; [ apply (rule2_fires w H1 H2) | right; auto ]. }
  destruct (lt (hr p) 100 && gt (sbp p) 100 && gt (spo2 p) 95) eqn:H3.
  { eexists; eexists; split; [ apply (rule3_fires w H1 H2 H3) | right; auto ]. }
  destruct (rule4_fires w H1 H2 H3) as (label & w' & Hrun & Hl).
  exists label, w'. split; [ exact Hrun | right; auto ].
Qed.

(** Rule 1 is off as soon as [shock_index <= 0.9] and [sbp >= 90]. *)
Lemma rule1_off :
  le (shock_index p) 0.9 = true -> ge (sbp p) 90 = true ->
  gt (shock_index p) 0.9 || lt (sbp p) 90 = false.
Proof.
  intros Hsi Hsbp. rewrite (le_not_gt Hsi), (ge_not_lt Hsbp). reflexivity.
Qed.

(** The label and the intervention depend on the generator only. *)
Lemma rule_engine_same_rng (w1 w2 : World) :
  same_rng w1 w2 ->
  fst (get_rule_based_prediction p w1) = fst (get_rule_based_prediction p w2) /\
  same_rng (snd (get_rule_based_prediction p w1)) (snd (get_rule_based_prediction p w2)).
Proof.
  intros Hw. unfold get_rule_based_prediction, bind.
  destruct (gt (shock_index p) 0.9 || lt (sbp p) 90); [ simpl; auto | ].
  destruct ((abnormal_count p >=? 3)%Z || (confusion p =? 1)%Z || (chest_pain p =? 1)%Z);
    [ simpl; auto | ].
  destruct (lt (hr p) 100 && gt (sbp p) 100 && gt (spo2 p) 95); [ simpl; auto | ].
  destruct (choice_same_rng [Delayed; Minimal] Hw) as [Hf Hs].
  destruct (choice [Delayed; Minimal] w1) as [o1 w1'],
           (choice [Delayed; Minimal] w2) as [o2 w2'].
  simpl in Hf, Hs. subst o2. destruct o1; simpl; auto.
Qed.

End RuleEngine.

(** C1.  A record with [shock_index > 0.9] or [sbp < 90] is classified
    [Immediate] by the rule engine, whatever its other fields hold; the
    call returns and leaves the generator alone. *)
Theorem rule1_immediate (p : Patient) (w : World) :
  gt (shock_index p) 0.9 = true \/ lt (sbp p) 90 = true ->
  exists res,
    get_rule_based_prediction p w = (Return res, w) /\ risk res = Immediate.
Proof.
  intros H. eexists. split.
  - apply rule1_fires. destruct H as [H|H]; rewrite H; auto using orb_true_r.
  - reflexivity.
Qed.

Lemma rule1_immediate_witness :
  (gt (shock_index shocked) 0.9 = true \/ lt (sbp shocked) 90 = true) /\
  exists res,
    get_rule_based_prediction shocked (world_of 0) = (Return res, world_of 0) /\
    risk res = Immediate.
Proof.
  split.
  - left. vm_compute. reflexivity.
  - apply (rule1_immediate shocked (world_of 0)). left. vm_compute. reflexivity.
Defined.

(** C6.  When rule 1 does not fire ([shock_index <= 0.9] and [sbp >= 90])
    and [abnormal_count >= 3] or [confusion == 1] or [chest_pain == 1], the
    rule engine answers [Delayed].  In particular, with no classifier
    loaded, a record with [abnormal_count = 4], [confusion = 0],
    [chest_pain = 0], [shock_index = 0.2] and [sbp = 110] gets the risk
    [Delayed] from the classifier adapter. *)
Theorem rule2_delayed (p : Patient) (w : World) :
  (le (shock_index p) 0.9 = true ->
   ge (sbp p) 90 = true ->
   (abnormal_count p >= 3 \/ confusion p = 1 \/ chest_pain p = 1)%Z ->
   exists res,
     get_rule_based_prediction p w = (Return res, w) /\ risk res = Delayed) /\
  (forall env : Runtime,
     MODEL env = None ->
     abnormal_count p = 4%Z -> confusion p = 0%Z -> chest_pain p = 0%Z ->
     shock_index p = 0.2%float -> sbp p = 110%float ->
     exists res,
       get_model_prediction env p w = (Return res, w) /\ risk res = Delayed).
Proof.
  assert (General :
    le (shock_index p) 0.9 = true -> ge (sbp p) 90 = true ->
    (abnormal_count p >= 3 \/ confusion p = 1 \/ chest_pain p = 1)%Z ->
    exists res,
      get_rule_based_prediction p w = (Return res, w) /\ risk res = Delayed).
  { intros Hsi Hsbp Hc.
    assert (Hrule2 : (abnormal_count p >=? 3)%Z || (confusion p =? 1)%Z
                     || (chest_pain p =? 1)%Z = true).
    { destruct Hc as [Hc|[Hc|Hc]].
      - apply Z.ge_le, Z.geb_le in Hc. rewrite Hc. reflexivity.
      - apply Z.eqb_eq in Hc. rewrite Hc. apply orb_true_iff. left. apply orb_true_r.
      - apply Z.eqb_eq in Hc. rewrite Hc. apply orb_true_r. }
    eexists. split.
    - apply rule2_fires; [ now apply rule1_off | exact Hrule2 ].
    - reflexivity. }
  split; [ exact General | ].
  intros env Hm Hab Hconf Hcp Hsi Hsbp.
  unfold get_model_prediction. rewrite Hm.
  apply General.
  - rewrite Hsi. vm_compute. reflexivity.
  - rewrite Hsbp. vm_compute. reflexivity.
  - left. lia.
Qed.

Lemma rule2_delayed_witness :
  (le (shock_index many_abnormal) 0.9 = true /\
   ge (sbp many_abnormal) 90 = true /\
   (abnormal_count many_abnormal >= 3)%Z) /\
  (exists res,
     get_rule_based_prediction many_abnormal (world_of 0) = (Return res, world_of 0) /\
     risk res = Delayed) /\
  (exists res,
     get_model_prediction (mkRuntime None (fun rows => Return rows)) many_abnormal (world_of 0)
       = (Return res, world_of 0) /\
     risk res = Delayed).
Proof.
  split; [ | split ].
  - repeat split; vm_compute; congruence.
  - apply (proj1 (rule2_delayed many_abnormal (world_of 0))).
    + vm_compute. reflexivity.
    + vm_compute. reflexivity.
    + left. vm_compute. congruence.
  - apply (proj2 (rule2_delayed many_abnormal (world_of 0))); reflexivity.
Defined.

(** C7.  The rule engine is total: on every record and in every state of
    the generator it returns, never raises, and the label it returns is
    one of [Immediate], [Delayed] and [Minimal].  Records holding NaN or
    infinite vitals are records like any other. *)
Theorem rule_engine_total (p : Patient) (w : World) :
  exists res w',
    get_rule_based_prediction p w = (Return res, w') /\
    (risk res = Immediate \/ risk res = Delayed \/ risk res = Minimal).
Proof.
  destruct (rule_engine_cases p w) as (label & w' & Hrun & Hcase).
  exists (mkPredictionResult label (rule_based_intervention p label)), w'.
  split; [ exact Hrun | ]. simpl.
  destruct Hcase as [[_ Hl] | [_ [Hl | Hl]]]; auto.
Qed.

(** The rule engine on degenerate records: with every vital NaN no
    threshold holds and rule 4 draws; the intervention is [Nil]. *)
Example nan_record_draw0 :
  get_rule_based_prediction all_nan (world_of 0)
  = (Return (mkPredictionResult Delayed Nil), mkWorld (fun _ => 0%nat) 1 [] accepting).
Proof. vm_compute. reflexivity. Qed.

Example nan_record_draw1 :
  get_rule_based_prediction all_nan (world_of 1)
  = (Return (mkPredictionResult Minimal Nil), mkWorld (fun _ => 1%nat) 1 [] accepting).
Proof. vm_compute. reflexivity. Qed.

Example extreme_record :
  get_rule_based_prediction extreme (world_of 0)
  = (Return (mkPredictionResult Delayed Oxygen), mkWorld (fun _ => 0%nat) 1 [] accepting).
Proof. vm_compute. reflexivity. Qed.

(** Scenarios A and B of the specification. *)
Example scenario_A :
  get_rule_based_prediction shocked (world_of 0)
  = (Return (mkPredictionResult Immediate ICU), world_of 0).
Proof. vm_compute. reflexivity. Qed.

Example scenario_B :
  get_rule_based_prediction hypoxic (world_of 1)
  = (Return (mkPredictionResult Minimal Oxygen), mkWorld (fun _ => 1%nat) 1 [] accepting).
Proof. vm_compute. reflexivity. Qed.

(** C10.  The rule engine answers [Immediate] only under rule 1: a
    returned [Immediate] implies [shock_index > 0.9] or [sbp < 90]; a
    record with [shock_index <= 0.9] and [sbp >= 90] is classified
    [Delayed] or [Minimal]; and when none of rules 1 to 3 fires, the drawn
    label is [Delayed] or [Minimal], never [Immediate]. *)
Theorem immediate_only_by_rule1 (p : Patient) (w : World) :
  (forall res w',
     get_rule_based_prediction p w = (Return res, w') ->
     risk res = Immediate ->
     gt (shock_index p) 0.9 = true \/ lt (sbp p) 90 = true) /\
  (le (shock_index p) 0.9 = true ->
   ge (sbp p) 90 = true ->
   exists res w',
     get_rule_based_prediction p w = (Return res, w') /\
     (risk res = Delayed \/ risk res = Minimal)) /\
  (gt (shock_index p) 0.9 || lt (sbp p) 90 = false ->
   (abnormal_count p >=? 3)%Z || (confusion p =? 1)%Z || (chest_pain p =? 1)%Z = false ->
   lt (hr p) 100 && gt (sbp p) 100 && gt (spo2 p) 95 = false ->
   exists res w',
     get_rule_based_prediction p w = (Return res, w') /\
     (risk res = Delayed \/ risk res = Minimal) /\
     risk res <> Immediate).
Proof.
  destruct (rule_engine_cases p w) as (label & w0 & Hrun0 & Hcase).
  split; [ | split ].
  - intros res w' Hrun Himm.
    destruct Hcase as [[H1 _] | [_ Hl]].
    + apply orb_true_iff in H1. exact H1.
    + rewrite Hrun in Hrun0. injection Hrun0 as Hres Hw. subst res.
      simpl in Himm. rewrite Himm in Hl. destruct Hl as [Hl|Hl]; discriminate Hl.
  - intros Hsi Hsbp.
    destruct Hcase as [[H1 _] | [_ Hl]].
    + rewrite (rule1_off p Hsi Hsbp) in H1. discriminate H1.
    + eexists; eexists; split; [ exact Hrun0 | exact Hl ].
  - intros H1 H2 H3.
    destruct (rule4_fires p w H1 H2 H3) as (lbl & w' & Hrun & Hl).
    exists (mkPredictionResult lbl (rule_based_intervention p lbl)), w'.
    split; [ exact Hrun | ]. split; [ exact Hl | ].
    simpl. destruct Hl as [Hl|Hl]; rewrite Hl; discriminate.
Qed.

Lemma immediate_only_by_rule1_witness :
  (le (shock_index borderline) 0.9 = true /\ ge (sbp borderline) 90 = true /\
   exists res w',
     get_rule_based_prediction borderline (world_of 1) = (Return res, w') /\
     (risk res = Delayed \/ risk res = Minimal)) /\
  (exists res w',
     get_rule_based_prediction borderline (world_of 1) = (Return res, w') /\
     (risk res = Delayed \/ risk res = Minimal) /\
     risk res <> Immediate).
Proof.
  split.
  - split; [ vm_compute; reflexivity | ]. split; [ vm_compute; reflexivity | ].
    apply (proj1 (proj2 (immediate_only_by_rule1 borderline (world_of 1))));
      vm_compute; reflexivity.
  - apply (proj2 (proj2 (immediate_only_by_rule1 borderline (world_of 1))));
      vm_compute; reflexivity.
Defined.

(* ===================================================================== *)
(** ** The classifier adapter *)
(* ===================================================================== *)


Section Adapter.

Variables (env : Runtime) (p : Patient).

(** When the [try] block raises an instance of [Exception], the adapter
    prints the notice and hands the record to the rule engine. *)
Lemma except_branch (model : Classifier) (e : exn) (w : World) :
  MODEL env = Some model ->
  model_branch env model p w = (Raise e, w) ->
  is_Exception e = true ->
  get_model_prediction env p w =
    (print (fallback_line e) ;;; get_rule_based_prediction p) w.
Proof.
  intros Hm Hraise He. unfold get_model_prediction, try_except. rewrite Hm, Hraise.
  destruct e; [ reflexivity | discriminate He ].
Qed.

(** Anything else the [try] block raises goes through. *)
Lemma escape_branch (model : Classifier) (e : exn) (w : World) :
  MODEL env = Some model ->
  model_branch env model p w = (Raise e, w) ->
  is_Exception e = false ->
  get_model_prediction env p w = (Raise e, w).
Proof.
  intros Hm Hraise He. unfold get_model_prediction, try_except. rewrite Hm, Hraise.
  destruct e; [ discriminate He | reflexivity ].
Qed.

(** The three places where the [try] block can raise. *)
Lemma model_branch_raises (model : Classifier) (e : exn) (w : World) :
  pd_DataFrame env [features p] = Raise e \/
  (exists df, pd_DataFrame env [features p] = Return df /\
              predict model df = Raise e) \/
  (exists df, pd_DataFrame env [features p] = Return df /\
              predict model df = Return [] /\
              e = Exception "list index out of range") ->
  model_branch env model p w = (Raise e, w).
Proof.
  unfold model_branch, bind, lift.
  intros [Hf | [(df & Hf & Hp) | (df & Hf & Hp & ->)]].
  - rewrite Hf. reflexivity.
  - rewrite Hf, Hp. reflexivity.
  - rewrite Hf, Hp. reflexivity.
Qed.

(** The [try] block leaves the world alone. *)
Lemma model_branch_world (model : Classifier) (w : World) :
  snd (model_branch env model p w) = w.
Proof.
  unfold model_branch, bind, lift.
  destruct (pd_DataFrame env [features p]) as [df|e]; [ | reflexivity ].
  destruct (predict model df) as [[|c rest]|e]; reflexivity.
Qed.

End Adapter.

(** C3, as the specification words it, fails in two ways.  A classifier
    interrupted in [predict] raises what [except Exception] does not
    catch, and the adapter raises it in turn.  A classifier that raises a
    [ValueError] whose text is not ASCII, under a standard output opened
    in ASCII, makes the [print] of the [except] block raise, and the
    adapter raises that.  The rule engine classifies the same record in
    the same state both times. *)
Lemma classifier_error_escapes :
  fst (get_model_prediction interrupted_model borderline (world_of 1))
    = Raise (BaseException "KeyboardInterrupt") /\
  fst (get_rule_based_prediction borderline (world_of 1))
    = Return (mkPredictionResult Minimal Nil) /\
  fst (get_model_prediction accented_model borderline (ascii_world_of 1))
    = Raise (Exception "'ascii' codec can't encode character") /\
  fst (get_rule_based_prediction borderline (ascii_world_of 1))
    = Return (mkPredictionResult Minimal Nil).
Proof. repeat split; vm_compute; reflexivity. Qed.

(** C3, amended.  If no classifier is loaded, or the loaded classifier
    raises an instance of [Exception] while the frame is built, while
    [predict] runs or while its first label is read, and standard output
    takes the fallback notice, then the classifier adapter returns what
    the rule engine returns for the same record from the same state of
    the generator, leaves the generator as the rule engine leaves it, and
    does return: the classifier's exception does not reach the caller. *)
Theorem classifier_fallback (env : Runtime) (p : Patient) (w : World) :
  (MODEL env = None \/
   exists model e, MODEL env = Some model /\
     (pd_DataFrame env [features p] = Raise e \/
      (exists df, pd_DataFrame env [features p] = Return df /\
                  predict model df = Raise e) \/
      (exists df, pd_DataFrame env [features p] = Return df /\
                  predict model df = Return [] /\
                  e = Exception "list index out of range")) /\
     is_Exception e = true /\
     stdout_error w (stdout w) (fallback_line e) = None) ->
  fst (get_model_prediction env p w) = fst (get_rule_based_prediction p w) /\
  same_rng (snd (get_model_prediction env p w)) (snd (get_rule_based_prediction p w)) /\
  exists res, fst (get_model_prediction env p w) = Return res.
Proof.
  intros H.
  assert (Same :
    fst (get_model_prediction env p w) = fst (get_rule_based_prediction p w) /\
    same_rng (snd (get_model_prediction env p w)) (snd (get_rule_based_prediction p w))).
  { destruct H as [Hnone | (model & e & Hm & Hfail & He & Hout)].
    - unfold get_model_prediction. rewrite Hnone. split; [ reflexivity | ].
      split; reflexivity.
    - pose proof (@model_branch_raises env p model e w Hfail) as Hraise.
      rewrite (@except_branch env p model e w Hm Hraise He).
      unfold bind, print. rewrite Hout.
      apply rule_engine_same_rng. split; reflexivity. }
  destruct Same as [Hres Hrng]. split; [ exact Hres | ]. split; [ exact Hrng | ].
  destruct (rule_engine_cases p w) as (label & w' & Hrun & _).
  eexists. rewrite Hres, Hrun. reflexivity.
Qed.

Lemma classifier_fallback_witness :
  (exists model e, MODEL broken_model = Some model /\
     (exists df, pd_DataFrame broken_model [features borderline] = Return df /\
                 predict model df = Raise e) /\
     is_Exception e = true /\
     stdout_error (world_of 1) (stdout (world_of 1)) (fallback_line e) = None) /\
  fst (get_model_prediction broken_model borderline (world_of 1))
    = fst (get_rule_based_prediction borderline (world_of 1)) /\
  same_rng (snd (get_model_prediction broken_model borderline (world_of 1)))
           (snd (get_rule_based_prediction borderline (world_of 1))) /\
  exists res,
    fst (get_model_prediction broken_model borderline (world_of 1)) = Return res.
Proof.
  split.
  - exists always_raises, (Exception "feature_names mismatch").
    split; [ reflexivity | ]. split; [ | split; reflexivity ].
    eexists; split; reflexivity.
  - apply (classifier_fallback broken_model borderline (world_of 1)).
    right. exists always_raises, (Exception "feature_names mismatch").
    split; [ reflexivity | ]. split; [ | split; reflexivity ].
    right; left. eexists; split; reflexivity.
Defined.

(** The fallback at work: the stub raises, the notice is printed, and the
    record goes through rule 4 with the generator's draw. *)
Example broken_model_run :
  get_model_prediction broken_model borderline (world_of 1)
  = (Return (mkPredictionResult Minimal Nil),
     mkWorld (fun _ => 1%nat) 1
       ["Model prediction error: feature_names mismatch. Falling back to rule-based logic."]
       accepting).
Proof. vm_compute. reflexivity. Qed.

(** C8.  When a classifier is loaded and its prediction succeeds with
    first label [c], the adapter's risk is [Minimal] for [c = 0],
    [Delayed] for [c = 1] and [Immediate] for every other [c]; the
    intervention is the policy's for that risk. *)
Theorem label_mapping (env : Runtime) (model : Classifier) (p : Patient) (w : World)
    (df : DataFrame) (c : Z) (rest : list Z) :
  MODEL env = Some model ->
  pd_DataFrame env [features p] = Return df ->
  predict model df = Return (c :: rest) ->
  exists res,
    get_model_prediction env p w = (Return res, w) /\
    intervention res = rule_based_intervention p (risk res) /\
    (c = 0%Z -> risk res = Minimal) /\
    (c = 1%Z -> risk res = Delayed) /\
    (c <> 0%Z -> c <> 1%Z -> risk res = Immediate).
Proof.
  intros Hm Hf Hp.
  unfold get_model_prediction, try_except, model_branch, bind, lift.
  rewrite Hm, Hf, Hp. simpl.
  eexists. split; [ reflexivity | ]. simpl. split; [ reflexivity | ].
  repeat split.
  - intros ->. reflexivity.
  - intros ->. reflexivity.
  - intros H0 H1.
    apply Z.eqb_neq in H0. apply Z.eqb_neq in H1. rewrite H0, H1. reflexivity.
Qed.

Lemma label_mapping_witness :
  (MODEL (model_saying 2) = Some (constant 2) /\
   pd_DataFrame (model_saying 2) [features hypoxic] = Return [features hypoxic] /\
   predict (constant 2) [features hypoxic] = Return [2%Z]) /\
  exists res,
    get_model_prediction (model_saying 2) hypoxic (world_of 0) = (Return res, world_of 0) /\
    intervention res = rule_based_intervention hypoxic (risk res) /\
    (2 = 0 -> risk res = Minimal)%Z /\
    (2 = 1 -> risk res = Delayed)%Z /\
    (2 <> 0 -> 2 <> 1 -> risk res = Immediate)%Z.
Proof.
  split.
  - repeat split.
  - apply (@label_mapping (model_saying 2) (constant 2) hypoxic (world_of 0)
             [features hypoxic] 2%Z []); reflexivity.
Defined.

Example model_says_minimal :
  returned (get_model_prediction (model_saying 0) shocked (world_of 0))
  = Some (mkPredictionResult Minimal Nil).
Proof. vm_compute. reflexivity. Qed.

Example model_says_seven :
  returned (get_model_prediction (model_saying 7) tachycardic (world_of 0))
  = Some (mkPredictionResult Immediate ICU).
Proof. vm_compute. reflexivity. Qed.

(* ===================================================================== *)
(** ** The severity scorer *)
(* ===================================================================== *)

(** C4.  [map_risk_to_score] is a function of its argument alone, defined
    on every string: [Immediate] scores 0.9, [Delayed] 0.6, [Minimal] 0.2,
    a label the scorer does not recognise (it carries neither [RED] nor
    [YELLOW]) scores 0.2 like [Minimal], and every score lies in [0, 1]. *)
Theorem severity_score_table :
  map_risk_to_score Immediate = 0.9%float /\
  map_risk_to_score Delayed = 0.6%float /\
  map_risk_to_score Minimal = 0.2%float /\
  (forall label,
     str_in "RED" label = false -> str_in "YELLOW" label = false ->
     map_risk_to_score label = map_risk_to_score Minimal) /\
  (forall label,
     map_risk_to_score label = 0.9%float \/
     map_risk_to_score label = 0.6%float \/
     map_risk_to_score label = 0.2%float) /\
  (forall label,
     le 0 (map_risk_to_score label) = true /\ le (map_risk_to_score label) 1 = true).
Proof.
  split; [ reflexivity | ]. split; [ reflexivity | ]. split; [ reflexivity | ].
  split; [ | split ]; intros label.
  - intros Hred Hyellow. unfold map_risk_to_score at 1.
    rewrite Hred, Hyellow. reflexivity.
  - unfold map_risk_to_score.
    destruct (str_in "RED" label); [ now left | ].
    destruct (str_in "YELLOW" label); [ now right; left | now right; right ].
  - unfold map_risk_to_score.
    destruct (str_in "RED" label); [ split; reflexivity | ].
    destruct (str_in "YELLOW" label); split; reflexivity.
Qed.

Lemma severity_score_table_witness :
  str_in "RED" "Unknown" = false /\ str_in "YELLOW" "Unknown" = false /\
  map_risk_to_score "Unknown" = map_risk_to_score Minimal.
Proof.
  split; [ reflexivity | ]. split; [ reflexivity | ].
  apply (proj1 (proj2 (proj2 (proj2 severity_score_table)))); reflexivity.
Defined.

(** Recognition is by substring: a label that merely contains [RED] is
    scored as [Immediate] is. *)
Example substring_recognition :
  map_risk_to_score "INFRARED" = 0.9%float /\
  map_risk_to_score "immediate (red)" = 0.2%float.
Proof. split; reflexivity. Qed.

(* ===================================================================== *)
(** ** Further facts about the primitives *)
(* ===================================================================== *)

Unset Implicit Arguments.

Section FloatChains.

(** The order on exponent and mantissa that [SFcompare] uses between two
    finite numbers of the same sign. *)
Lemma lex_lt_trans (e1 e2 e3 : Z) (m1 m2 m3 : positive) :
  match (e1 ?= e2)%Z with Lt => Lt | Gt => Gt | Eq => Pos.compare_cont Eq m1 m2 end = Lt ->
  match (e2 ?= e3)%Z with Lt => Lt | Gt => Gt | Eq => Pos.compare_cont Eq m2 m3 end = Lt ->
  match (e1 ?= e3)%Z with Lt => Lt | Gt => Gt | Eq => Pos.compare_cont Eq m1 m3 end = Lt.
Proof.
  change (Pos.compare_cont Eq m1 m2) with (m1 ?= m2)%positive.
  change (Pos.compare_cont Eq m2 m3) with (m2 ?= m3)%positive.
  change (Pos.compare_cont Eq m1 m3) with (m1 ?= m3)%positive.
  destruct (Z.compare_spec e1 e2), (Z.compare_spec e2 e3), (Z.compare_spec e1 e3);
    try discriminate; try lia; try reflexivity;
    destruct (Pos.compare_spec m1 m2), (Pos.compare_spec m2 m3),
             (Pos.compare_spec m1 m3);
    try discriminate; try lia; reflexivity.
Qed.

Lemma lex_gt_trans (e1 e2 e3 : Z) (m1 m2 m3 : positive) :
  match (e1 ?= e2)%Z with Lt => Gt | Gt => Lt | Eq => CompOpp (Pos.compare_cont Eq m1 m2) end = Lt ->
  match (e2 ?= e3)%Z with Lt => Gt | Gt => Lt | Eq => CompOpp (Pos.compare_cont Eq m2 m3) end = Lt ->
  match (e1 ?= e3)%Z with Lt => Gt | Gt => Lt | Eq => CompOpp (Pos.compare_cont Eq m1 m3) end = Lt.
Proof.
  change (Pos.compare_cont Eq m1 m2) with (m1 ?= m2)%positive.
  change (Pos.compare_cont Eq m2 m3) with (m2 ?= m3)%positive.
  change (Pos.compare_cont Eq m1 m3) with (m1 ?= m3)%positive.
  destruct (Z.compare_spec e1 e2), (Z.compare_spec e2 e3), (Z.compare_spec e1 e3);
    try discriminate; try lia; try reflexivity;
    destruct (Pos.compare_spec m1 m2), (Pos.compare_spec m2 m3),
             (Pos.compare_spec m1 m3);
    simpl; try discriminate; try lia; reflexivity.
Qed.

(** [<] on floats is transitive. *)
Lemma SFcompare_lt_trans (x y z : spec_float) :
  SFcompare x y = Some Lt -> SFcompare y z = Some Lt -> SFcompare x z = Some Lt.
Proof.
  destruct x as [sx|sx| |sx mx ex], y as [sy|sy| |sy my ey], z as [sz|sz| |sz mz ez];
    simpl; try discriminate;
    try (destruct sx); try (destruct sy); try (destruct sz);
    simpl; try discriminate; try reflexivity;
    intros H1 H2; injection H1 as H1; injection H2 as H2; f_equal.
  - exact (lex_gt_trans _ _ _ _ _ _ H1 H2).
  - exact (lex_lt_trans _ _ _ _ _ _ H1 H2).
Qed.

Lemma ltb_trans (a b c : float) :
  (a <? b)%float = true -> (b <? c)%float = true -> (a <? c)%float = true.
Proof.
  rewrite !ltb_spec. unfold SFltb.
  destruct (SFcompare (Prim2SF a) (Prim2SF b)) as [[ | | ]|] eqn:Hab; try discriminate.
  destruct (SFcompare (Prim2SF b) (Prim2SF c)) as [[ | | ]|] eqn:Hbc; try discriminate.
  rewrite (SFcompare_lt_trans _ _ _ Hab Hbc). reflexivity.
Qed.

End FloatChains.

Section Strings.

(** [String.prefix] finds its first argument at offset 0. *)
Lemma prefix_split (needle hay : string) :
  String.prefix needle hay = true <-> exists post, hay = needle ++ post.
Proof.
  revert hay. induction needle as [|c needle IH]; intros hay.
  - split; [ intros _; exists hay; reflexivity | ].
    intros _. destruct hay; reflexivity.
  - destruct hay as [|d hay]; cbn [String.prefix].
    + split; [ discriminate | intros (post & H); discriminate H ].
    + destruct (Ascii.ascii_dec c d) as [->|Hne].
      * split.
        -- intros H. apply IH in H. destruct H as (post & H).
           exists post. simpl. now rewrite H.
        -- intros (post & H). simpl in H. injection H as H.
           apply IH. exists post. exact H.
      * split; [ discriminate | ].
        intros (post & H). simpl in H. injection H as H1 H2. congruence.
Qed.

(** [str_in needle hay] holds exactly when [hay] is [needle] between a
    text before and a text after. *)
Lemma str_in_split (needle hay : string) :
  str_in needle hay = true <-> exists pre post, hay = pre ++ needle ++ post.
Proof.
  induction hay as [|d hay IH].
  - cbn [str_in]. rewrite orb_false_r, prefix_split. split.
    + intros (post & H). exists "", post. exact H.
    + intros (pre & post & H). destruct pre as [|c pre]; [ | discriminate H ].
      exists post. exact H.
  - cbn [str_in]. rewrite orb_true_iff, prefix_split, IH. split.
    + intros [(post & H) | (pre & post & H)].
      * exists "", post. exact H.
      * exists (String d pre), post. simpl. now rewrite H.
    + intros (pre & post & H). destruct pre as [|c pre].
      * left. exists post. exact H.
      * right. simpl in H. injection H as _ H. exists pre, post. exact H.
Qed.

End Strings.

Section Scores.

(** The three scores are three different floats. *)
Lemma scores_differ :
  0.9%float <> 0.6%float /\ 0.9%float <> 0.2%float /\ 0.6%float <> 0.2%float.
Proof.
  repeat split; intros H.
  - apply (f_equal (fun x => (x =? 0.9)%float)) in H. vm_compute in H. discriminate H.
  - apply (f_equal (fun x => (x =? 0.9)%float)) in H. vm_compute in H. discriminate H.
  - apply (f_equal (fun x => (x =? 0.6)%float)) in H. vm_compute in H. discriminate H.
Qed.

End Scores.

(* ===================================================================== *)
(** ** The scorer, the policy and the adapter as a whole *)
(* ===================================================================== *)

(** X1.  [map_risk_to_score] answers 0.9 exactly for the labels that
    contain [RED], 0.6 exactly for those that contain [YELLOW] and no
    [RED], and 0.2 exactly for those that contain neither. *)
Theorem score_by_substring (label : string) :
  (map_risk_to_score label = 0.9%float <->
     exists pre post, label = pre ++ "RED" ++ post) /\
  (map_risk_to_score label = 0.6%float <->
     (~ exists pre post, label = pre ++ "RED" ++ post) /\
     exists pre post, label = pre ++ "YELLOW" ++ post) /\
  (map_risk_to_score label = 0.2%float <->
     (~ exists pre post, label = pre ++ "RED" ++ post) /\
     ~ exists pre post, label = pre ++ "YELLOW" ++ post).
Proof.
  destruct scores_differ as (H96 & H92 & H62).
  rewrite <- !str_in_split. unfold map_risk_to_score.
  destruct (str_in "RED" label), (str_in "YELLOW" label);
    repeat split; try tauto; try congruence;
    try (intros [? ?]; congruence); intros H; exfalso; congruence.
Qed.

Lemma score_by_substring_witness :
  map_risk_to_score "INFRARED" = 0.9%float.
Proof.
  apply (proj1 (score_by_substring "INFRARED")).
  exists "INFRA", "". reflexivity.
Defined.

Section Policy.

Variable p : Patient.

(** The policy on the three labels the program produces. *)
Lemma intervention_immediate :
  rule_based_intervention p Immediate = if lt (spo2 p) 88 then Oxygen else ICU.
Proof. unfold rule_based_intervention. destruct (lt (spo2 p) 88); reflexivity. Qed.

Lemma intervention_other (label : string) :
  label = Delayed \/ label = Minimal ->
  rule_based_intervention p label =
    if lt (spo2 p) 88 then Oxygen
    else if gt (hr p) 130 || lt (sbp p) 80 || gt (shock_index p) 1.2 then Ventilator
    else Nil.
Proof.
  intros [-> | ->]; unfold rule_based_intervention;
    destruct (lt (spo2 p) 88); reflexivity.
Qed.

(** With rule 1 off, the pressure and shock tests of the policy are off
    too: [sbp < 80] would give [sbp < 90], and [shock_index > 1.2] would
    give [shock_index > 0.9]. *)
Lemma rule1_off_policy :
  gt (shock_index p) 0.9 || lt (sbp p) 90 = false ->
  lt (sbp p) 80 = false /\ gt (shock_index p) 1.2 = false.
Proof.
  intros H. apply orb_false_iff in H. destruct H as [Hsi Hsbp]. split.
  - destruct (lt (sbp p) 80) eqn:H80; [ | reflexivity ].
    rewrite <- Hsbp. symmetry. unfold lt in *.
    apply (@ltb_trans (sbp p) 80 90 H80). reflexivity.
  - destruct (gt (shock_index p) 1.2) eqn:H12; [ | reflexivity ].
    rewrite <- Hsi. symmetry. unfold gt in *.
    apply (@ltb_trans 0.9 1.2 (shock_index p)); [ reflexivity | exact H12 ].
Qed.

(** The rule engine returns, with one of the three labels and the
    policy's intervention; it takes at most one draw and leaves standard
    output alone. *)
Lemma engine_footprint (w : World) :
  exists label w',
    get_rule_based_prediction p w =
      (Return (mkPredictionResult label (rule_based_intervention p label)), w') /\
    (label = Immediate \/ label = Delayed \/ label = Minimal) /\
    rng_draws w' = rng_draws w /\
    (rng_pos w' = rng_pos w \/ rng_pos w' = S (rng_pos w)) /\
    stdout w' = stdout w /\
    stdout_error w' = stdout_error w.
Proof.
  destruct (gt (shock_index p) 0.9 || lt (sbp p) 90) eqn:H1.
  { exists Immediate, w. rewrite (rule1_fires p w H1). auto 10. }
  destruct ((abnormal_count p >=? 3)%Z || (confusion p =? 1)%Z
            || (chest_pain p =? 1)%Z) eqn:H2.
  { exists Delayed, w. rewrite (rule2_fires p w H1 H2). auto 10. }
  destruct (lt (hr p) 100 && gt (sbp p) 100 && gt (spo2 p) 95) eqn:H3.
  { exists Minimal, w. rewrite (rule3_fires p w H1 H2 H3). auto 10. }
  unfold get_rule_based_prediction, bind. rewrite H1, H2, H3.
  destruct (choice_two Delayed Minimal w) as (label & w' & Hc & Hl).
  rewrite Hc. exists label, w'. split; [ reflexivity | ].
  unfold choice in Hc. injection Hc as _ Hw. subst w'. simpl. tauto.
Qed.

Variable env : Runtime.

(** What the [try] block returns fits the record. *)
Lemma model_branch_returned (model : Classifier) (w w' : World) (res : PredictionResult) :
  model_branch env model p w = (Return res, w') ->
  fits p res /\ w' = w.
Proof.
  unfold model_branch, bind, lift.
  destruct (pd_DataFrame env [features p]) as [df|e]; [ | discriminate ].
  destruct (predict model df) as [[|c rest]|e]; simpl; try discriminate.
  intros H. injection H as <- <-. split; [ | reflexivity ].
  split; [ | reflexivity ]. simpl.
  destruct (c =? 0)%Z; [ auto | ]. destruct (c =? 1)%Z; auto.
Qed.

(** The five ways a call of the adapter can go. *)
Lemma adapter_cases (w : World) :
  (MODEL env = None /\
   get_model_prediction env p w = get_rule_based_prediction p w) \/
  (exists model res,
     MODEL env = Some model /\
     model_branch env model p w = (Return res, w) /\
     get_model_prediction env p w = (Return res, w)) \/
  (exists model e,
     MODEL env = Some model /\
     model_branch env model p w = (Raise e, w) /\
     is_Exception e = false /\
     get_model_prediction env p w = (Raise e, w)) \/
  (exists model e e',
     MODEL env = Some model /\
     model_branch env model p w = (Raise e, w) /\
     is_Exception e = true /\
     stdout_error w (stdout w) (fallback_line e) = Some e' /\
     get_model_prediction env p w = (Raise e', w)) \/
  (exists model e,
     MODEL env = Some model /\
     model_branch env model p w = (Raise e, w) /\
     is_Exception e = true /\
     stdout_error w (stdout w) (fallback_line e) = None /\
     get_model_prediction env p w =
       get_rule_based_prediction p
         (mkWorld (rng_draws w) (rng_pos w) (stdout w ++ [fallback_line e])%list
                  (stdout_error w))).
Proof.
  destruct (MODEL env) as [model|] eqn:Hm.
  - right.
    pose proof (model_branch_world env p model w) as Hw.
    destruct (model_branch env model p w) as [[res|e] w1] eqn:Hb; simpl in Hw; subst w1.
    + left. exists model, res. split; [ reflexivity | ]. split; [ exact Hb | ].
      unfold get_model_prediction, try_except. rewrite Hm, Hb. reflexivity.
    + right. destruct (is_Exception e) eqn:He.
      * right. rewrite (@except_branch env p model e w Hm Hb He). unfold bind, print.
        destruct (stdout_error w (stdout w) (fallback_line e)) as [e'|] eqn:Hout.
        -- left. exists model, e, e'. auto.
        -- right. exists model, e. auto.
      * left. exists model, e. split; [ reflexivity | ]. split; [ exact Hb | ].
        split; [ exact He | ]. apply (@escape_branch env p model e w Hm Hb He).
  - left. split; [ reflexivity | ].
    unfold get_model_prediction. rewrite Hm. reflexivity.
Qed.

(** What the adapter returns fits the record; the call has taken at most
    one draw, and the stream refuses afterwards what it refused before. *)
Lemma adapter_returned (w w' : World) (res : PredictionResult) :
  get_model_prediction env p w = (Return res, w') ->
  fits p res /\
  rng_draws w' = rng_draws w /\
  (rng_pos w' = rng_pos w \/ rng_pos w' = S (rng_pos w)) /\
  stdout_error w' = stdout_error w.
Proof.
  intros Hrun.
  destruct (adapter_cases w)
    as [(_ & H) | [(model & res0 & _ & Hb & H) | [(model & e & _ & _ & _ & H)
       | [(model & e & e' & _ & _ & _ & _ & H) | (model & e & _ & _ & _ & _ & H)]]]];
    rewrite H in Hrun; try discriminate Hrun.
  - destruct (engine_footprint w) as (label & w0 & Hrun0 & Hl & Hd & Hp & _ & Hs).
    rewrite Hrun0 in Hrun. injection Hrun as <- <-.
    split; [ split; [ exact Hl | reflexivity ] | auto ].
  - injection Hrun as <- <-.
    destruct (model_branch_returned model w w res0 Hb) as [Hfits _]. auto.
  - match type of Hrun with get_rule_based_prediction p ?w1 = _ =>
      destruct (engine_footprint w1) as (label & w0 & Hrun0 & Hl & Hd & Hp & _ & Hs)
    end.
    rewrite Hrun0 in Hrun. injection Hrun as <- <-.
    split; [ split; [ exact Hl | reflexivity ] | auto ].
Qed.


End Policy.



(** X3.  In every result of the adapter, [Oxygen] is recommended exactly
    when [spo2 < 88], and [ICU] exactly when the risk is [Immediate] and
    [spo2 < 88] does not hold. *)
Theorem adapter_oxygen_and_icu (env : Runtime) (p : Patient) (w w' : World)
    (res : PredictionResult) :
  get_model_prediction env p w = (Return res, w') ->
  (intervention res = Oxygen <-> lt (spo2 p) 88 = true) /\
  (intervention res = ICU <-> risk res = Immediate /\ lt (spo2 p) 88 = false).
Proof.
  intros Hrun.
  destruct (adapter_returned p env w w' res Hrun) as [[Hl Hi] _].
  rewrite Hi. destruct Hl as [-> | Hl].
  - rewrite intervention_immediate.
    destruct (lt (spo2 p) 88); intuition (try discriminate; congruence).
  - rewrite (intervention_other p (risk res) Hl).
    destruct (lt (spo2 p) 88); [ intuition (try discriminate; congruence) | ].
    destruct (gt (hr p) 130 || lt (sbp p) 80 || gt (shock_index p) 1.2);
      destruct Hl as [-> | ->]; intuition (try discriminate; congruence).
Qed.

Lemma adapter_oxygen_and_icu_witness :
  (intervention (mkPredictionResult Immediate ICU) = Oxygen <->
     lt (spo2 shocked) 88 = true) /\
  (intervention (mkPredictionResult Immediate ICU) = ICU <->
     risk (mkPredictionResult Immediate ICU) = Immediate /\ lt (spo2 shocked) 88 = false).
Proof.
  apply (adapter_oxygen_and_icu no_model shocked (world_of 0) (world_of 0)).
  vm_compute. reflexivity.
Defined.

(** X4.  Under the rule engine the intervention follows from the vitals
    alone: [Oxygen] when [spo2 < 88]; else [ICU] when rule 1 holds; else
    [Ventilator] when [hr > 130]; else [Nil].  The policy's [sbp < 80] and
    [shock_index > 1.2] tests never decide there, since either one makes
    rule 1 hold. *)
Theorem engine_intervention_table (p : Patient) (w w' : World) (res : PredictionResult) :
  get_rule_based_prediction p w = (Return res, w') ->
  intervention res =
    if lt (spo2 p) 88 then Oxygen
    else if gt (shock_index p) 0.9 || lt (sbp p) 90 then ICU
    else if gt (hr p) 130 then Ventilator
    else Nil.
Proof.
  intros Hrun.
  destruct (rule_engine_cases p w) as (label & w0 & Hrun0 & Hcase).
  rewrite Hrun in Hrun0. injection Hrun0 as Hres _. subst res. simpl.
  destruct Hcase as [[H1 ->] | [H1 Hl]].
  - rewrite intervention_immediate, H1. reflexivity.
  - rewrite (intervention_other p label Hl), H1.
    destruct (rule1_off_policy p H1) as [H80 H12]. rewrite H80, H12.
    rewrite !orb_false_r. reflexivity.
Qed.

Lemma engine_intervention_table_witness :
  intervention (mkPredictionResult Delayed Ventilator) =
    if lt (spo2 tachycardic) 88 then Oxygen
    else if gt (shock_index tachycardic) 0.9 || lt (sbp tachycardic) 90 then ICU
    else if gt (hr tachycardic) 130 then Ventilator
    else Nil.
Proof.
  apply (engine_intervention_table tachycardic (world_of 0)
           (mkWorld (fun _ => 0%nat) 1 [] accepting)).
  vm_compute. reflexivity.
Defined.

(** With a classifier loaded the pressure test does decide: a record
    with [sbp = 75] and a calm heart rate that the classifier calls
    [Delayed] gets [Ventilator]. *)
Example classifier_low_pressure :
  returned (get_model_prediction (model_saying 1)
              {| age := 50; sex := 0; hr := 80; sbp := 75; dbp := 50; rr := 18;
                 spo2 := 95; temp := 37; dyspnea := 0; chest_pain := 0;
                 confusion := 0; comorb := 0; pulse_pressure := 25; map := 58.3;
                 shock_index := 1.07; abnormal_count := 1 |} (world_of 0))
  = Some (mkPredictionResult Delayed Ventilator).
Proof. vm_compute. reflexivity. Qed.

(** X5.  When one of rules 1 to 3 holds, the rule engine's answer does
    not depend on the generator or on anything else in the world, and the
    call leaves the world as it found it: repeated calls agree. *)
Theorem engine_repeatable (p : Patient) :
  (gt (shock_index p) 0.9 || lt (sbp p) 90)
  || ((abnormal_count p >=? 3)%Z || (confusion p =? 1)%Z || (chest_pain p =? 1)%Z)
  || (lt (hr p) 100 && gt (sbp p) 100 && gt (spo2 p) 95) = true ->
  exists res, forall w, get_rule_based_prediction p w = (Return res, w).
Proof.
  intros H.
  destruct (gt (shock_index p) 0.9 || lt (sbp p) 90) eqn:H1.
  { eexists. intros w. apply (rule1_fires p w H1). }
  destruct ((abnormal_count p >=? 3)%Z || (confusion p =? 1)%Z
            || (chest_pain p =? 1)%Z) eqn:H2.
  { eexists. intros w. apply (rule2_fires p w H1 H2). }
  simpl in H.
  eexists. intros w. apply (rule3_fires p w H1 H2 H).
Qed.

Lemma engine_repeatable_witness :
  exists res, forall w, get_rule_based_prediction many_abnormal w = (Return res, w).
Proof.
  apply (engine_repeatable many_abnormal). vm_compute. reflexivity.
Defined.

(** X6.  When none of rules 1 to 3 holds, the rule engine takes exactly
    one draw from the generator and prints nothing, and the same record
    is classified [Delayed] in some states of the generator and [Minimal]
    in others. *)
Theorem engine_rule4_draws (p : Patient) :
  gt (shock_index p) 0.9 || lt (sbp p) 90 = false ->
  (abnormal_count p >=? 3)%Z || (confusion p =? 1)%Z || (chest_pain p =? 1)%Z = false ->
  lt (hr p) 100 && gt (sbp p) 100 && gt (spo2 p) 95 = false ->
  (forall w, exists res,
     get_rule_based_prediction p w =
       (Return res, mkWorld (rng_draws w) (S (rng_pos w)) (stdout w) (stdout_error w))) /\
  (exists w res w',
     get_rule_based_prediction p w = (Return res, w') /\ risk res = Delayed) /\
  (exists w res w',
     get_rule_based_prediction p w = (Return res, w') /\ risk res = Minimal).
Proof.
  intros H1 H2 H3.
  assert (Run : forall w,
    get_rule_based_prediction p w =
      (Return (let label := nth (rng_draws w (rng_pos w) mod 2) [Delayed; Minimal] Delayed
               in mkPredictionResult label (rule_based_intervention p label)),
       mkWorld (rng_draws w) (S (rng_pos w)) (stdout w) (stdout_error w))).
  { intros w. unfold get_rule_based_prediction, bind. rewrite H1, H2, H3. reflexivity. }
  split; [ | split ].
  - intros w. eexists. apply Run.
  - exists (world_of 0). eexists; eexists. split; [ apply Run | reflexivity ].
  - exists (world_of 1). eexists; eexists. split; [ apply Run | reflexivity ].
Qed.

Lemma engine_rule4_draws_witness :
  exists w res w',
    get_rule_based_prediction borderline w = (Return res, w') /\ risk res = Minimal.
Proof.
  apply (proj2 (proj2 (engine_rule4_draws borderline eq_refl eq_refl eq_refl))).
Defined.

(** X7.  What a returning call of the adapter leaves behind.  It takes
    at most one draw from the generator.  With no classifier loaded, and
    when the [try] block returns, standard output is as before.  When the
    [try] block raises [e], standard output has exactly one more text,
    the fallback notice that carries [str(e)], and the result is the rule
    engine's for the record in that state. *)
Theorem adapter_footprint (env : Runtime) (p : Patient) (w w' : World)
    (res : PredictionResult) :
  get_model_prediction env p w = (Return res, w') ->
  rng_draws w' = rng_draws w /\
  (rng_pos w' = rng_pos w \/ rng_pos w' = S (rng_pos w)) /\
  (MODEL env = None -> stdout w' = stdout w) /\
  (forall model res0,
     MODEL env = Some model ->
     model_branch env model p w = (Return res0, w) ->
     res = res0 /\ w' = w) /\
  (forall model e,
     MODEL env = Some model ->
     model_branch env model p w = (Raise e, w) ->
     stdout w' = (stdout w ++ [("Model prediction error: " ++ exn_str e
                                ++ ". Falling back to rule-based logic.")%string])%list /\
     get_rule_based_prediction p
       (mkWorld (rng_draws w) (rng_pos w)
                (stdout w ++ [("Model prediction error: " ++ exn_str e
                               ++ ". Falling back to rule-based logic.")%string])%list
                (stdout_error w))
     = (Return res, w')).
Proof.
  intros Hrun.
  destruct (adapter_returned p env w w' res Hrun) as (_ & Hd & Hp & _).
  split; [ exact Hd | ]. split; [ exact Hp | ].
  destruct (adapter_cases p env w)
    as [(Hnone & H) | [(model & res0 & Hm & Hb & H) | [(model & e & Hm & Hb & _ & H)
       | [(model & e & e' & Hm & Hb & _ & _ & H) | (model & e & Hm & Hb & _ & _ & H)]]]];
    rewrite H in Hrun; try discriminate Hrun.
  - split; [ | split ].
    + intros _. destruct (engine_footprint p w) as (label & w0 & Hrun0 & _ & _ & _ & Hs & _).
      rewrite Hrun0 in Hrun. injection Hrun as _ <-. exact Hs.
    + intros model res0 Hm. congruence.
    + intros model e Hm. congruence.
  - injection Hrun as <- <-. split; [ | split ].
    + intros Hnone. congruence.
    + intros model' res1 Hm' Hb'.
      assert (model' = model) by congruence. subst model'.
      rewrite Hb in Hb'. injection Hb' as <-. auto.
    + intros model' e Hm' Hb'.
      assert (model' = model) by congruence. subst model'.
      rewrite Hb in Hb'. discriminate Hb'.
  - split; [ | split ].
    + intros Hnone. congruence.
    + intros model' res1 Hm' Hb'.
      assert (model' = model) by congruence. subst model'.
      rewrite Hb in Hb'. discriminate Hb'.
    + intros model' e1 Hm' Hb'.
      assert (model' = model) by congruence. subst model'.
      rewrite Hb in Hb'. injection Hb' as <-.
      split; [ | exact Hrun ].
      match type of Hrun with get_rule_based_prediction p ?w1 = _ =>
        destruct (engine_footprint p w1) as (label & w0 & Hrun0 & _ & _ & _ & Hs & _)
      end.
      rewrite Hrun0 in Hrun. injection Hrun as _ <-. exact Hs.
Qed.

Lemma adapter_footprint_witness :
  stdout (snd (get_model_prediction broken_model borderline (world_of 1)))
  = (stdout (world_of 1)
     ++ [("Model prediction error: " ++ exn_str (Exception "feature_names mismatch")
          ++ ". Falling back to rule-based logic.")%string])%list.
Proof.
  apply (proj2 (proj2 (proj2 (proj2
           (adapter_footprint broken_model borderline (world_of 1)
              (snd (get_model_prediction broken_model borderline (world_of 1)))
              (mkPredictionResult Minimal Nil) eq_refl))))
           always_raises (Exception "feature_names mismatch") eq_refl eq_refl).
Defined.

(* ===================================================================== *)
(** ** Start-up and the prediction route *)
(* ===================================================================== *)


Section Route.

Variable env : Runtime.

(** The list built so far is only ever extended. *)
Lemma predict_each_prefix (patients : list Patient) :
  forall (results : list PredictionResult) (w : World),
    predict_each env patients results w =
      match predict_each env patients [] w with
      | (Return preds, w') => (Return (results ++ preds)%list, w')
      | (Raise e, w') => (Raise e, w')
      end.
Proof.
  induction patients as [|p rest IH]; intros results w.
  - simpl. unfold ret. rewrite app_nil_r. reflexivity.
  - cbn [predict_each]. unfold bind.
    destruct (get_model_prediction env p w) as [[pred|e] w1]; [ | reflexivity ].
    rewrite (IH (results ++ [pred])%list), (IH ([] ++ [pred])%list).
    destruct (predict_each env rest [] w1) as [[preds|e] w2]; [ | reflexivity ].
    simpl. rewrite <- app_assoc. reflexivity.
Qed.

(** Looping over two lists in a row is looping over their concatenation. *)
Lemma predict_each_app (ps1 ps2 : list Patient) :
  forall (results : list PredictionResult) (w : World),
    predict_each env (ps1 ++ ps2) results w =
      match predict_each env ps1 results w with
      | (Return preds, w1) => predict_each env ps2 preds w1
      | (Raise e, w1) => (Raise e, w1)
      end.
Proof.
  induction ps1 as [|p rest IH]; intros results w.
  - reflexivity.
  - cbn [predict_each app]. unfold bind.
    destruct (get_model_prediction env p w) as [[pred|e] w1]; [ | reflexivity ].
    apply IH.
Qed.




End Route.



Example predict_triage_run :
  fst (predict_triage broken_model [shocked; borderline] (world_of 1))
  = Responds [mkPredictionResult Immediate ICU; mkPredictionResult Minimal Nil].
Proof. vm_compute. reflexivity. Qed.

(** The route lets the interrupt of a classifier through, and the error
    of a [print] that the stream refuses. *)
Example predict_triage_uncaught :
  fst (predict_triage interrupted_model [shocked] (world_of 1))
    = Uncaught (BaseException "KeyboardInterrupt") /\
  fst (predict_triage accented_model [shocked] (ascii_world_of 1))
    = Uncaught (Exception "'ascii' codec can't encode character").
Proof. split; vm_compute; reflexivity. Qed.

(** X9.  Two requests served one after the other give, together, the
    response to the one request that carries both lists: the predictions
    of the first followed by those of the second, and the same final
    state. *)
Theorem predict_triage_concat (env : Runtime) (ps1 ps2 : list Patient)
    (w w1 w2 : World) (r1 r2 : list PredictionResult) :
  predict_triage env ps1 w = (Responds r1, w1) ->
  predict_triage env ps2 w1 = (Responds r2, w2) ->
  predict_triage env (ps1 ++ ps2) w = (Responds (r1 ++ r2)%list, w2).
Proof.
  unfold predict_triage. intros H1 H2.
  destruct ps1 as [|p1 rest1]; [ discriminate H1 | ].
  destruct ps2 as [|p2 rest2]; [ discriminate H2 | ].
  destruct (predict_each env (p1 :: rest1) [] w) as [[preds1|e1] w1'] eqn:E1;
    [ | discriminate H1 ].
  destruct (predict_each env (p2 :: rest2) [] w1) as [[preds2|e2] w2'] eqn:E2;
    [ | discriminate H2 ].
  injection H1 as -> ->. injection H2 as -> ->.
  rewrite predict_each_app, E1, predict_each_prefix, E2.
  destruct ((p1 :: rest1) ++ p2 :: rest2)%list eqn:Happ; [ discriminate Happ | ].
  reflexivity.
Qed.

Lemma predict_triage_concat_witness :
  predict_triage broken_model ([shocked] ++ [borderline]) (world_of 1)
  = (Responds ([mkPredictionResult Immediate ICU] ++ [mkPredictionResult Minimal Nil])%list,
     snd (predict_triage broken_model [borderline]
            (snd (predict_triage broken_model [shocked] (world_of 1))))).
Proof.
  apply (predict_triage_concat broken_model [shocked] [borderline] (world_of 1)
           (snd (predict_triage broken_model [shocked] (world_of 1)))).
  - vm_compute. reflexivity.
  - vm_compute. reflexivity.
Defined.

(** Splits on whether the stream takes the text of the next [print]. *)
Ltac split_print :=
  match goal with
  | |- context [match stdout_error ?w ?taken ?text with Some _ => _ | None => _ end] =>
      let E := fresh "Hprint" in destruct (stdout_error w taken text) eqn:E
  end.






(* ===================================================================== *)
(** ** The batch runner *)
(* ===================================================================== *)

Section Draws.

(** [random.randint(a, b)] on a non-empty range takes one draw and
    answers within the range. *)
Lemma randint_range (a b : Z) (w : World) :
  (a <= b)%Z ->
  exists n,
    randint a b w
      = (Return n, mkWorld (rng_draws w) (S (rng_pos w)) (stdout w) (stdout_error w)) /\
    (a <= n <= b)%Z.
Proof.
  intros Hab. unfold randint.
  destruct (b <? a)%Z eqn:Hlt; [ apply Z.ltb_lt in Hlt; lia | ].
  eexists. split; [ reflexivity | ].
  pose proof (Nat.mod_upper_bound (rng_draws w (rng_pos w)) (Z.to_nat (b - a + 1))) as Hk.
  assert (Hpos : Z.to_nat (b - a + 1) <> 0%nat) by lia.
  specialize (Hk Hpos). lia.
Qed.

(** [random.choice] on a non-empty list takes one draw and answers with
    an element of the list. *)
Lemma choice_in (A : Type) (seq : list A) (w : World) :
  seq <> [] ->
  exists x,
    choice seq w
      = (Return x, mkWorld (rng_draws w) (S (rng_pos w)) (stdout w) (stdout_error w)) /\
    In x seq.
Proof.
  intros Hne. unfold choice. destruct seq as [|d l]; [ congruence | ].
  eexists. split; [ reflexivity | ].
  apply nth_In. apply Nat.mod_upper_bound. discriminate.
Qed.

End Draws.

Section Batch.

Variables (host : Host) (env : Runtime).

(** One turn of the loop on a row that validates and whose prediction
    returns: two draws follow the prediction, the first for the
    placeholder id, the second for the placeholder location. *)
Lemma triage_rows_step (row : Series) (rest results : Frame) (m : Machine)
    (patient : Patient) (pred : PredictionResult) (w1 : World) :
  Patient_validate host row = Return patient ->
  get_model_prediction env patient (world m) = (Return pred, w1) ->
  exists n region,
    (1000 <= n <= 9999)%Z /\ In region regions /\
    triage_rows host env (row :: rest) results m =
      triage_rows host env rest (results ++ [result_row row patient pred n region])%list
        (mkMachine (mkWorld (rng_draws w1) (S (S (rng_pos w1))) (stdout w1)
                            (stdout_error w1))
                   (written m)).
Proof.
  intros Hvalid Hpred.
  destruct (randint_range 1000 9999 w1) as (n & Hn & Hrange); [ lia | ].
  destruct (choice_in _ regions
              (mkWorld (rng_draws w1) (S (rng_pos w1)) (stdout w1) (stdout_error w1)))
    as (region & Hregion & Hin); [ discriminate | ].
  exists n, region. split; [ exact Hrange | ]. split; [ exact Hin | ].
  cbn [triage_rows]. unfold bindS, liftS, in_world. rewrite Hvalid.
  cbn [world written]. rewrite Hpred. cbn [world written]. rewrite Hn.
  cbn [world written]. rewrite Hregion. reflexivity.
Qed.

(** A turn of the loop stops the run when the row does not validate or
    the prediction raises. *)
Lemma triage_rows_stop_invalid (row : Series) (rest results : Frame) (m : Machine)
    (e : exn) :
  Patient_validate host row = Raise e ->
  triage_rows host env (row :: rest) results m = (Raise e, m).
Proof.
  intros Hbad. cbn [triage_rows]. unfold bindS, liftS. rewrite Hbad. reflexivity.
Qed.

Lemma triage_rows_stop_raised (row : Series) (rest results : Frame) (m : Machine)
    (patient : Patient) (e : exn) (w1 : World) :
  Patient_validate host row = Return patient ->
  get_model_prediction env patient (world m) = (Raise e, w1) ->
  triage_rows host env (row :: rest) results m = (Raise e, mkMachine w1 (written m)).
Proof.
  intros Hvalid Hpred. cbn [triage_rows]. unfold bindS, liftS, in_world.
  rewrite Hvalid. cbn [world written]. rewrite Hpred. reflexivity.
Qed.

(** The loop never writes a file. *)
Lemma triage_rows_writes_nothing (rows : Frame) :
  forall (results : Frame) (m : Machine),
    written (snd (triage_rows host env rows results m)) = written m.
Proof.
  induction rows as [|row rest IH]; intros results m.
  - reflexivity.
  - destruct (Patient_validate host row) as [patient|e] eqn:Hvalid.
    + destruct (get_model_prediction env patient (world m)) as [[pred|e] w1] eqn:Hpred.
      * destruct (triage_rows_step row rest results m patient pred w1 Hvalid Hpred)
          as (n & region & _ & _ & Hstep).
        rewrite Hstep, IH. reflexivity.
      * rewrite (triage_rows_stop_raised row rest results m patient e w1 Hvalid Hpred).
        reflexivity.
    + rewrite (triage_rows_stop_invalid row rest results m e Hvalid). reflexivity.
Qed.

(** When the loop returns, it has appended one fitting output row per
    input row, in order, and taken two or three draws for each. *)
Lemma triage_rows_returned (rows : Frame) :
  forall (results out : Frame) (m m' : Machine),
    triage_rows host env rows results m = (Return out, m') ->
    exists outs,
      out = (results ++ outs)%list /\
      Forall2 (row_result host) rows outs /\
      stdout_error (world m') = stdout_error (world m) /\
      (rng_pos (world m) + 2 * List.length rows <= rng_pos (world m')
       <= rng_pos (world m) + 3 * List.length rows)%nat.
Proof.
  induction rows as [|row rest IH]; intros results out m m' Hrun.
  - simpl in Hrun. injection Hrun as <- <-. exists []. rewrite app_nil_r.
    split; [ reflexivity | ]. split; [ constructor | ]. split; [ reflexivity | ].
    simpl. lia.
  - destruct (Patient_validate host row) as [patient|e] eqn:Hvalid.
    + destruct (get_model_prediction env patient (world m)) as [[pred|e] w1] eqn:Hpred.
      * destruct (triage_rows_step row rest results m patient pred w1 Hvalid Hpred)
          as (n & region & Hn & Hin & Hstep).
        rewrite Hstep in Hrun.
        destruct (IH _ _ _ _ Hrun) as (outs & -> & Hrows & Hs & Hp).
        destruct (adapter_returned patient env (world m) w1 pred Hpred)
          as (Hfits & _ & Hpos & Hs1).
        exists (result_row row patient pred n region :: outs).
        rewrite <- app_assoc. split; [ reflexivity | ]. split; [ | split ].
        -- constructor; [ | exact Hrows ].
           exists patient, pred, n, region. auto.
        -- rewrite Hs. cbn [world stdout_error]. exact Hs1.
        -- cbn [world rng_pos List.length] in *. lia.
      * rewrite (triage_rows_stop_raised row rest results m patient e w1 Hvalid Hpred)
          in Hrun. discriminate Hrun.
    + rewrite (triage_rows_stop_invalid row rest results m e Hvalid) in Hrun.
      discriminate Hrun.
Qed.



End Batch.

Section BatchRun.

Variables (host : Host) (env : Runtime) (input_path output_path : string).

(** What a run that returns has gone through. *)
Lemma batch_returned (triage_df : Frame) (m m' : Machine) :
  run_triage_on_csv host env input_path output_path m = (Return triage_df, m') ->
  exists df m1,
    os_path_exists host input_path = true /\
    pd_read_csv host input_path = Return df /\
    triage_rows host env df [] (after_loaded df m) = (Return triage_df, m1) /\
    to_csv_write host triage_df output_path = Stored /\
    written m' = (written m1 ++ [(output_path, triage_df)])%list /\
    rng_pos (world m') = rng_pos (world m1).
Proof.
  unfold run_triage_on_csv.
  destruct (os_path_exists host input_path); cbn [negb]; [ | discriminate ].
  unfold bindS at 1. unfold liftS at 1.
  destruct (pd_read_csv host input_path) as [df|e]; [ | discriminate ].
  unfold bindS at 1. unfold in_world at 1. unfold print at 1.
  split_print; [ discriminate | ].
  fold (after_loaded df m).
  unfold bindS at 1.
  destruct (triage_rows host env df [] (after_loaded df m)) as [[results|e] m1] eqn:Hloop;
    [ | discriminate ].
  unfold bindS at 1. unfold liftS, DataFrame_of.
  destruct (DataFrame_error host results); [ discriminate | ].
  unfold bindS at 1. unfold to_csv.
  destruct (to_csv_write host results output_path) eqn:Hwrite; try discriminate.
  unfold bindS, in_world, retS, print. cbn [world written].
  split_print; [ discriminate | ].
  intros H. injection H as <- <-.
  exists df, m1. cbn [world written rng_pos]. auto 10.
Qed.

End BatchRun.

(** X12.  When [run_triage_on_csv] returns, the frame it returns has one
    row per row of the frame it read, in the same order.  Each output row
    carries the age of the patient its input row validates to, one of the
    three risks, the severity score of that risk (0.9, 0.6 or 0.2) and
    the policy's intervention for that patient and risk; and the last
    file written is the output path, holding the returned frame. *)
Theorem batch_output (host : Host) (env : Runtime) (input_path output_path : string)
    (triage_df : Frame) (m m' : Machine) :
  run_triage_on_csv host env input_path output_path m = (Return triage_df, m') ->
  exists df,
    pd_read_csv host input_path = Return df /\
    List.length triage_df = List.length df /\
    written m' = (written m ++ [(output_path, triage_df)])%list /\
    Forall2
      (fun row out =>
         exists patient label,
           Patient_validate host row = Return patient /\
           (forall d, get out "age" d = CInt (age patient)) /\
           (forall d, get out "risk" d = CStr label) /\
           (forall d, get out "intervention" d
                      = CStr (rule_based_intervention patient label)) /\
           ((label = Immediate /\ forall d, get out "severity_score" d = CFloat 0.9) \/
            (label = Delayed /\ forall d, get out "severity_score" d = CFloat 0.6) \/
            (label = Minimal /\ forall d, get out "severity_score" d = CFloat 0.2)))
      df triage_df.
Proof.
  intros Hrun.
  destruct (batch_returned host env input_path output_path triage_df m m' Hrun)
    as (df & m1 & _ & Hread & Hloop & _ & Hw & _).
  destruct (triage_rows_returned host env df _ _ _ _ Hloop) as (outs & Hout & Hrows & _).
  cbn [app] in Hout. subst outs.
  pose proof (triage_rows_writes_nothing host env df [] (after_loaded df m)) as Hsame.
  rewrite Hloop in Hsame. cbn [snd after_loaded written] in Hsame.
  exists df. split; [ exact Hread | ].
  split; [ symmetry; apply (Forall2_length Hrows) | ].
  split; [ rewrite Hw, Hsame; reflexivity | ].
  revert Hrows. apply Forall2_impl.
  intros row out (patient & pred & n & region & Hvalid & [Hl Hi] & _ & _ & ->).
  exists patient, (risk pred). split; [ exact Hvalid | ].
  split; [ reflexivity | ]. split; [ reflexivity | ].
  split; [ intros d; cbn; rewrite Hi; reflexivity | ].
  destruct Hl as [Hl | [Hl | Hl]]; [ left | right; left | right; right ];
    (split; [ exact Hl | intros d; cbn; rewrite Hl; reflexivity ]).
Qed.

Lemma batch_output_witness :
  exists df,
    pd_read_csv (host_with [row_asha; row_ravi]) PATIENT_STATUS_PATH = Return df /\
    List.length
      (frame_of (run_triage_on_csv (host_with [row_asha; row_ravi]) no_model
                   PATIENT_STATUS_PATH TRIAGE_OUTPUT_PATH (machine_of 1)))
      = List.length df.
Proof.
  destruct (batch_output (host_with [row_asha; row_ravi]) no_model
              PATIENT_STATUS_PATH TRIAGE_OUTPUT_PATH
              (frame_of (run_triage_on_csv (host_with [row_asha; row_ravi]) no_model
                           PATIENT_STATUS_PATH TRIAGE_OUTPUT_PATH (machine_of 1)))
              (machine_of 1)
              (snd (run_triage_on_csv (host_with [row_asha; row_ravi]) no_model
                      PATIENT_STATUS_PATH TRIAGE_OUTPUT_PATH (machine_of 1)))
              eq_refl) as (df & Hread & Hlen & _).
  exists df. split; [ exact Hread | exact Hlen ].
Defined.

(** A complete run on a frame with identifier columns, and one on a
    frame without: the first keeps the rows' identifiers, the second
    gets the placeholders. *)
Example batch_run :
  returned_frame
    (run_triage_on_csv (host_with [row_asha; row_ravi]) no_model
       PATIENT_STATUS_PATH TRIAGE_OUTPUT_PATH (machine_of 1))
  = Some
      [ [ ("patient_id", CStr "P001"); ("name", CStr "Asha"); ("age", CInt 61);
          ("severity_score", CFloat 0.9); ("risk", CStr "Immediate (RED)");
          ("intervention", CStr "ICU"); ("location", CStr "East") ];
        [ ("patient_id", CStr "P002"); ("name", CStr "Ravi"); ("age", CInt 52);
          ("severity_score", CFloat 0.2); ("risk", CStr "Minimal (GREEN)");
          ("intervention", CStr "Nil"); ("location", CStr "West") ] ].
Proof. vm_compute. reflexivity. Qed.

Example batch_run_placeholders :
  returned_frame
    (run_triage_on_csv (host_with [anon_shock; anon_border]) no_model
       PATIENT_STATUS_PATH TRIAGE_OUTPUT_PATH (machine_of 1))
  = Some
      [ [ ("patient_id", CStr "PX1001"); ("name", CStr "Unknown"); ("age", CInt 61);
          ("severity_score", CFloat 0.9); ("risk", CStr "Immediate (RED)");
          ("intervention", CStr "ICU"); ("location", CStr "South") ];
        [ ("patient_id", CStr "PX1001"); ("name", CStr "Unknown"); ("age", CInt 52);
          ("severity_score", CFloat 0.2); ("risk", CStr "Minimal (GREEN)");
          ("intervention", CStr "Nil"); ("location", CStr "South") ] ].
Proof. vm_compute. reflexivity. Qed.

(** X13.  When [run_triage_on_csv] returns, every output row has, under
    [patient_id], [name] and [location], what [row.get] gives on its input
    row: the row's own cell when the frame read has that column, and
    otherwise [PX] followed by a number from 1000 to 9999, [Unknown], and
    one of the five regions. *)
Theorem batch_identifiers (host : Host) (env : Runtime) (input_path output_path : string)
    (triage_df : Frame) (m m' : Machine) :
  run_triage_on_csv host env input_path output_path m = (Return triage_df, m') ->
  exists df,
    pd_read_csv host input_path = Return df /\
    Forall2
      (fun row out =>
         (exists n, (1000 <= n <= 9999)%Z /\
            forall d, get out "patient_id" d = get row "patient_id" (CStr ("PX" ++ str n))) /\
         (forall d, get out "name" d = get row "name" (CStr "Unknown")) /\
         (exists region, In region ["North"; "South"; "East"; "West"; "Central"] /\
            forall d, get out "location" d = get row "location" (CStr region)))
      df triage_df.
Proof.
  intros Hrun.
  destruct (batch_returned host env input_path output_path triage_df m m' Hrun)
    as (df & m1 & _ & Hread & Hloop & _).
  destruct (triage_rows_returned host env df _ _ _ _ Hloop) as (outs & Hout & Hrows & _).
  cbn [app] in Hout. subst outs.
  exists df. split; [ exact Hread | ].
  revert Hrows. apply Forall2_impl.
  intros row out (patient & pred & n & region & _ & _ & Hn & Hin & ->).
  split; [ exists n; split; [ exact Hn | reflexivity ] | ].
  split; [ reflexivity | ].
  exists region. split; [ exact Hin | reflexivity ].
Qed.

Lemma batch_identifiers_witness :
  exists df,
    pd_read_csv (host_with [anon_shock; anon_border]) PATIENT_STATUS_PATH = Return df /\
    Forall2
      (fun row out =>
         (exists n, (1000 <= n <= 9999)%Z /\
            forall d, get out "patient_id" d = get row "patient_id" (CStr ("PX" ++ str n))) /\
         (forall d, get out "name" d = get row "name" (CStr "Unknown")) /\
         (exists region, In region ["North"; "South"; "East"; "West"; "Central"] /\
            forall d, get out "location" d = get row "location" (CStr region)))
      df
      (frame_of (run_triage_on_csv (host_with [anon_shock; anon_border]) broken_model
                   PATIENT_STATUS_PATH TRIAGE_OUTPUT_PATH (machine_of 3))).
Proof.
  apply (batch_identifiers (host_with [anon_shock; anon_border]) broken_model
           PATIENT_STATUS_PATH TRIAGE_OUTPUT_PATH
           (frame_of (run_triage_on_csv (host_with [anon_shock; anon_border]) broken_model
                        PATIENT_STATUS_PATH TRIAGE_OUTPUT_PATH (machine_of 3)))
           (machine_of 3)
           (snd (run_triage_on_csv (host_with [anon_shock; anon_border]) broken_model
                   PATIENT_STATUS_PATH TRIAGE_OUTPUT_PATH (machine_of 3)))
           eq_refl).
Defined.

(** Whatever way a run ends, it has written nothing or one file at the
    output path. *)
Lemma batch_written (host : Host) (env : Runtime) (input_path output_path : string)
    (m m' : Machine) (o : outcome Frame) :
  run_triage_on_csv host env input_path output_path m = (o, m') ->
  written m' = written m \/
  exists content, written m' = (written m ++ [(output_path, content)])%list.
Proof.
  unfold run_triage_on_csv.
  destruct (os_path_exists host input_path); cbn [negb];
    [ | intros H; injection H as _ <-; left; reflexivity ].
  unfold bindS at 1. unfold liftS at 1.
  destruct (pd_read_csv host input_path) as [df|e];
    [ | intros H; injection H as _ <-; left; reflexivity ].
  unfold bindS at 1. unfold in_world at 1. unfold print at 1.
  split_print; [ intros H; injection H as _ <-; left; reflexivity | ].
  fold (after_loaded df m).
  pose proof (triage_rows_writes_nothing host env df [] (after_loaded df m)) as Hsame.
  unfold bindS at 1.
  destruct (triage_rows host env df [] (after_loaded df m)) as [[results|e] m1];
    cbn [snd after_loaded written] in Hsame;
    [ | intros H; injection H as _ <-; left; exact Hsame ].
  unfold bindS at 1. unfold liftS, DataFrame_of.
  destruct (DataFrame_error host results);
    [ intros H; injection H as _ <-; left; exact Hsame | ].
  unfold bindS at 1. unfold to_csv.
  destruct (to_csv_write host results output_path) as [ |e|partial e].
  - unfold bindS, in_world, retS, print. cbn [world written].
    split_print; intros H; injection H as _ <-; cbn [written]; rewrite Hsame;
      right; eexists; reflexivity.
  - intros H; injection H as _ <-. left; exact Hsame.
  - intros H; injection H as _ <-. cbn [written]. rewrite Hsame.
    right; eexists; reflexivity.
Qed.

(** X14.  [run_triage_on_csv] writes at most one file, and only at the
    output path: after a run, returned or raised, the files written are
    those written before, or those and one at the output path.  When the
    run returns, that file holds the returned frame. *)
Theorem batch_writes_once (host : Host) (env : Runtime)
    (input_path output_path : string) (m : Machine) :
  (written (snd (run_triage_on_csv host env input_path output_path m)) = written m \/
   exists content,
     written (snd (run_triage_on_csv host env input_path output_path m))
     = (written m ++ [(output_path, content)])%list) /\
  (forall triage_df,
     fst (run_triage_on_csv host env input_path output_path m) = Return triage_df ->
     written (snd (run_triage_on_csv host env input_path output_path m))
     = (written m ++ [(output_path, triage_df)])%list).
Proof.
  destruct (run_triage_on_csv host env input_path output_path m) as [o m'] eqn:Hrun.
  cbn [fst snd]. split.
  - apply (batch_written host env input_path output_path m m' o Hrun).
  - intros triage_df ->.
    destruct (batch_returned host env input_path output_path triage_df m m' Hrun)
      as (df & m1 & _ & _ & Hloop & _ & Hw & _).
    pose proof (triage_rows_writes_nothing host env df [] (after_loaded df m)) as Hsame.
    rewrite Hloop in Hsame. cbn [snd after_loaded written] in Hsame.
    rewrite Hw, Hsame. reflexivity.
Qed.

(** A run can raise with the file written: the [print] that follows the
    write holds an arrow, which an ASCII standard output refuses; and a
    write that fails midway leaves what had reached the disk. *)
Example batch_raises_after_write :
  run_triage_on_csv (host_with [anon_shock]) no_model
    PATIENT_STATUS_PATH TRIAGE_OUTPUT_PATH (ascii_machine_of 1)
  = (Raise (Exception "'ascii' codec can't encode character"),
     mkMachine
       (mkWorld (fun _ => 1%nat) 2 ["Loaded 1 patients for triage."] ascii_only)
       [ (TRIAGE_OUTPUT_PATH,
          [ [ ("patient_id", CStr "PX1001"); ("name", CStr "Unknown"); ("age", CInt 61);
              ("severity_score", CFloat 0.9); ("risk", CStr "Immediate (RED)");
              ("intervention", CStr "ICU"); ("location", CStr "South") ] ]) ]).
Proof. vm_compute. reflexivity. Qed.

Example batch_torn_write :
  fst (run_triage_on_csv (host_with_full_disk [anon_shock; anon_border]) no_model
         PATIENT_STATUS_PATH TRIAGE_OUTPUT_PATH (machine_of 1))
    = Raise (Exception "No space left on device") /\
  List.map (fun file => (fst file, List.length (snd file)))
    (written (snd (run_triage_on_csv (host_with_full_disk [anon_shock; anon_border])
                     no_model PATIENT_STATUS_PATH TRIAGE_OUTPUT_PATH (machine_of 1))))
    = [ (TRIAGE_OUTPUT_PATH, 1%nat) ].
Proof. split; vm_compute; reflexivity. Qed.



(** X16.  When [run_triage_on_csv] returns after reading [n] rows, it has
    taken between [2 n] and [3 n] draws from the generator: the
    placeholder id and the placeholder location are drawn for every row,
    whether or not the frame has columns of its own for them, and the
    adapter takes at most one more. *)
Theorem batch_draws (host : Host) (env : Runtime) (input_path output_path : string)
    (triage_df : Frame) (m m' : Machine) :
  run_triage_on_csv host env input_path output_path m = (Return triage_df, m') ->
  exists df,
    pd_read_csv host input_path = Return df /\
    (rng_pos (world m) + 2 * List.length df <= rng_pos (world m')
     <= rng_pos (world m) + 3 * List.length df)%nat.
Proof.
  intros Hrun.
  destruct (batch_returned host env input_path output_path triage_df m m' Hrun)
    as (df & m1 & _ & Hread & Hloop & _ & _ & Hpos).
  destruct (triage_rows_returned host env df _ _ _ _ Hloop) as (outs & _ & _ & _ & Hp).
  exists df. split; [ exact Hread | ].
  rewrite Hpos. cbn [after_loaded world rng_pos] in Hp. exact Hp.
Qed.

Lemma batch_draws_witness :
  exists df,
    pd_read_csv (host_with [row_asha; row_ravi]) PATIENT_STATUS_PATH = Return df /\
    (rng_pos (world (machine_of 0)) + 2 * List.length df
     <= rng_pos (world (snd (run_triage_on_csv (host_with [row_asha; row_ravi]) no_model
                               PATIENT_STATUS_PATH TRIAGE_OUTPUT_PATH (machine_of 0))))
     <= rng_pos (world (machine_of 0)) + 3 * List.length df)%nat.
Proof.
  apply (batch_draws (host_with [row_asha; row_ravi]) no_model
           PATIENT_STATUS_PATH TRIAGE_OUTPUT_PATH
           (frame_of (run_triage_on_csv (host_with [row_asha; row_ravi]) no_model
                        PATIENT_STATUS_PATH TRIAGE_OUTPUT_PATH (machine_of 0)))
           (machine_of 0)
           (snd (run_triage_on_csv (host_with [row_asha; row_ravi]) no_model
                   PATIENT_STATUS_PATH TRIAGE_OUTPUT_PATH (machine_of 0)))
           eq_refl).
Defined.
